(** * Zero Cloud LLM: the command-line driver of [src/main.js]

    A shallow embedding of the entry point of the repository (the file that
    declares [CONFIG], [initializePipeline], [generateResponse],
    [runDemoMode], [runInteractiveMode], [runSinglePrompt] and [main]) and
    the properties of its model loader and of its three session modes.

    - The text-generation library ([pipeline], the generator it returns,
      the [TextStreamer]) is external: it is a parameter of the development,
      a function from the engine state and the call to an answer, or an
      error, and a new engine state.
    - The program is a computation over a trace of events (console lines,
      library calls, [readline] operations), a world (engine state and
      [readline] interface) and a completion ([return], [throw] or
      [process.exit]); [await] is sequencing, the program having one thread.
    - Interactive mode reads a list of lines: each line is handed to the
      question then pending, and when the list is exhausted the question
      stays pending.
    - JavaScript strings are modelled as [string]; [trim] and [toLowerCase]
      are the ASCII fragment of the JavaScript functions (input lines are
      taken to be ASCII text). *)

From Stdlib Require Import String Ascii List ZArith QArith Bool Lia.
Import ListNotations.
Local Close Scope Q_scope.
Local Open Scope string_scope.
Local Open Scope list_scope.

(** ** Strings *)

Module JsString.

(** The ASCII white space and line terminators that [String.prototype.trim]
    removes: TAB, LF, VT, FF, CR and SPACE. *)
Definition isWhiteSpace (c : ascii) : bool :=
  let n := nat_of_ascii c in
  (((9 <=? n) && (n <=? 13)) || (n =? 32))%nat.

Fixpoint trimStart (s : string) : string :=
  match s with
  | EmptyString => EmptyString
  | String c s' => if isWhiteSpace c then trimStart s' else s
  end.

Fixpoint trimEnd (s : string) : string :=
  match s with
  | EmptyString => EmptyString
  | String c s' =>
      match trimEnd s' with
      | EmptyString => if isWhiteSpace c then EmptyString else String c EmptyString
      | t => String c t
      end
  end.

Definition trim (s : string) : string := trimEnd (trimStart s).

Definition lowerChar (c : ascii) : ascii :=
  let n := nat_of_ascii c in
  if ((65 <=? n) && (n <=? 90))%nat then ascii_of_nat (n + 32) else c.

Fixpoint toLowerCase (s : string) : string :=
  match s with
  | EmptyString => EmptyString
  | String c s' => String (lowerChar c) (toLowerCase s')
  end.

(** [Array.prototype.includes] on an array of strings. *)
Fixpoint includes (xs : list string) (x : string) : bool :=
  match xs with
  | [] => false
  | y :: ys => if String.eqb y x then true else includes ys x
  end.

(** [Array.prototype.join] with a separator. *)
Fixpoint join (sep : string) (xs : list string) : string :=
  match xs with
  | [] => ""
  | [x] => x
  | x :: ys => x ++ sep ++ join sep ys
  end.

(** JavaScript truthiness of a string: only the empty string is falsy. *)
Definition truthy (s : string) : bool :=
  match s with EmptyString => false | _ => true end.

(** Every character of [s] is white space. *)
Fixpoint allWhiteSpace (s : string) : bool :=
  match s with
  | EmptyString => true
  | String c s' => isWhiteSpace c && allWhiteSpace s'
  end.

End JsString.
Import JsString.

(** ** Data model *)

(** The global [CONFIG] object. *)
Record Config : Type := mkConfig {
  model : string;
  dtype : string;
  maxTokens : Z;
  temperature : Q
}.

Definition CONFIG : Config :=
  {| model := "onnx-community/DeepSeek-R1-Distill-Qwen-1.5B-ONNX";
     dtype := "q4f16";
     maxTokens := 512;
     temperature := 7 # 10 |}.

(** One turn of a conversation, [{ role, content }]. *)
Record Message : Type := mkMessage {
  role : string;
  content : string
}.

Definition Conversation : Type := list Message.

(** The options object given to the generator.  [streamer] tells whether a
    [TextStreamer] (built with [skip_prompt: true]) was passed. *)
Record GenOptions : Type := mkGenOptions {
  max_new_tokens : Z;
  do_sample : bool;
  streamer : bool
}.

(** What the generator resolves to: an array of [{ generated_text }], where
    [generated_text] is the conversation extended by the reply. *)
Record Generated : Type := mkGenerated {
  generated_text : list Message
}.

Definition Output : Type := list Generated.

(** A JavaScript [Error], identified by its [message]. *)
Definition Error : Type := string.

(** ** Observable behaviour *)

(** What the program writes to the console, one constructor per message of
    the source (colours, emoji and rulers left out, payloads kept; a banner
    of several lines is one message). *)
Inductive Line : Type :=
| Banner (model dtype : string) (maxTokens : Z)
| LoadingModel
| FirstRunNotice
| Blank
| ModelLoaded
| NpuActive
| ErrorLoadingModel (message : string)
| AssistantHeader
| StreamEnd
| AssistantReply (response : string)
| ErrorDuringGeneration (message : string)
| DemoBanner
| DemoHeader (i n : nat)
| UserPrompt (prompt : string)
| Separator
| InteractiveBanner
| Goodbye
| InteractiveError (message : string)
| PromptRequiresArgument
| UnknownArgument (arg : string)
| Usage
| FatalError (error : Error).

(** How a computation ends: it returns, it throws, or [process.exit] ends
    the process (which no [catch] intercepts). *)
Inductive Completion (A : Type) : Type :=
| Normal (a : A)
| Throw (e : Error)
| Halt (code : Z).
Arguments Normal {A} a.
Arguments Throw {A} e.
Arguments Halt {A} code.

(** The [readline] interface of interactive mode. *)
Inductive Readline : Type :=
| NotCreated
| Open
| Closed.

(** What the operating system sees of the process. *)
Inductive ProcessStatus : Type :=
| Exited (code : Z)
| AwaitingInput.

(** The interactions of the process with its environment, in program
    order.  [Generator] is the type of the callable that [pipeline] returns. *)
Inductive Event (Generator : Type) : Type :=
| Log (l : Line)
| LogError (l : Line)
| Clear
| PipelineCall (task model dtype : string)
| GeneratorCall (g : Generator) (messages : Conversation) (opts : GenOptions)
| Question
| Close.
Arguments Log {Generator} l.
Arguments LogError {Generator} l.
Arguments Clear {Generator}.
Arguments PipelineCall {Generator} task model dtype.
Arguments GeneratorCall {Generator} g messages opts.
Arguments Question {Generator}.
Arguments Close {Generator}.

Record World (EngineState : Type) : Type := mkWorld {
  engine : EngineState;
  readline : Readline
}.
Arguments mkWorld {EngineState} engine readline.
Arguments engine {EngineState} w.
Arguments readline {EngineState} w.

Record Run (Generator EngineState A : Type) : Type := mkRun {
  events : list (Event Generator);
  world : World EngineState;
  completion : Completion A
}.
Arguments mkRun {Generator EngineState A} events world completion.
Arguments events {Generator EngineState A} r.
Arguments world {Generator EngineState A} r.
Arguments completion {Generator EngineState A} r.

(** ** The effects of the program: a trace, a world, exceptions and exit *)

Module Effects.

Definition Prog (Generator EngineState A : Type) : Type :=
  World EngineState -> Run Generator EngineState A.

Section Monad.

Context {Generator EngineState : Type}.
Local Notation "'M' A" := (Prog Generator EngineState A) (at level 10, A at level 9).

Definition ret {A} (a : A) : M A :=
  fun w => mkRun [] w (Normal a).

Definition throw {A} (e : Error) : M A :=
  fun w => mkRun [] w (Throw e).

(** [process.exit(code)] *)
Definition exit {A} (code : Z) : M A :=
  fun w => mkRun [] w (Halt code).

Definition bind {A B} (p : M A) (k : A -> M B) : M B :=
  fun w =>
    match p w with
    | mkRun evs w1 (Normal a) =>
        match k a w1 with
        | mkRun evs' w2 c => mkRun (evs ++ evs') w2 c
        end
    | mkRun evs w1 (Throw e) => mkRun evs w1 (Throw e)
    | mkRun evs w1 (Halt code) => mkRun evs w1 (Halt code)
    end.

(** [try { p } catch (error) { h error }] *)
Definition tryCatch {A} (p : M A) (h : Error -> M A) : M A :=
  fun w =>
    match p w with
    | mkRun evs w1 (Throw e) =>
        match h e w1 with
        | mkRun evs' w2 c => mkRun (evs ++ evs') w2 c
        end
    | r => r
    end.

Definition emit (ev : Event Generator) : M unit :=
  fun w => mkRun [ev] w (Normal tt).

Definition log (l : Line) : M unit := emit (Log l).
Definition logError (l : Line) : M unit := emit (LogError l).

Definition setReadline (rl : Readline) : M unit :=
  fun w => mkRun [] (mkWorld (engine w) rl) (Normal tt).

End Monad.

Notation "x <- p ;; k" := (bind p (fun x => k))
  (at level 61, p at next level, right associativity).
Notation "p ;; k" := (bind p (fun _ => k))
  (at level 61, right associativity).

End Effects.
Import Effects.

(** ** The program *)

Section Program.

Context {Generator EngineState Entropy : Type}.

(** The external library.  [pipeline task model dtype] loads a model and
    gives the callable generator, or rejects.  [invoke rnd g st messages
    opts] is one call of the generator [g] in engine state [st]: it resolves
    to an output or rejects, and leaves the engine in a new state; [rnd] is
    the source of randomness the runtime may draw from when it samples. *)
Variable pipeline : string -> string -> string -> Error + Generator.
Variable invoke :
  Entropy -> Generator -> EngineState -> Conversation -> GenOptions ->
  (Error + Output) * EngineState.
Variable rnd : Entropy.

(** The configuration object; the source reads the global [CONFIG]. *)
Variable cfg : Config.

Local Notation "'M' A" := (Prog Generator EngineState A) (at level 10, A at level 9).

(** [await pipeline(task, model, { dtype })] *)
Definition callPipeline (task model dtype : string) : M Generator :=
  emit (PipelineCall task model dtype) ;;
  match pipeline task model dtype with
  | inr g => ret g
  | inl e => throw e
  end.

(** [await generator(messages, opts)] *)
Definition callGenerator (g : Generator) (messages : Conversation)
    (opts : GenOptions) : M Output :=
  fun w =>
    let '(res, st') := invoke rnd g (engine w) messages opts in
    mkRun [GeneratorCall g messages opts] (mkWorld st' (readline w))
      (match res with
       | inr out => Normal out
       | inl e => Throw e
       end).

Definition displayBanner : M unit :=
  log (Banner (model cfg) (dtype cfg) (maxTokens cfg)).

Definition initializePipeline : M Generator :=
  log LoadingModel ;;
  log FirstRunNotice ;;
  log Blank ;;
  tryCatch
    (generator <- callPipeline "text-generation" (model cfg) (dtype cfg) ;;
     log ModelLoaded ;;
     log NpuActive ;;
     log Blank ;;
     ret generator)
    (fun error =>
       logError (ErrorLoadingModel error) ;;
       throw error).

(** [output[0].generated_text.at(-1).content]; reading a property of
    [undefined] throws a [TypeError]. *)
Definition lastContent (output : Output) : M string :=
  match output with
  | [] => throw "Cannot read properties of undefined (reading 'generated_text')"
  | o :: _ =>
      match rev (generated_text o) with
      | [] => throw "Cannot read properties of undefined (reading 'content')"
      | m :: _ => ret (content m)
      end
  end.

Definition generateResponse (generator : Generator) (prompt : string)
    (streaming : bool) : M string :=
  let messages := [ {| role := "user"; content := prompt |} ] in
  tryCatch
    (if streaming then
       log AssistantHeader ;;
       output <- callGenerator generator messages
                   {| max_new_tokens := maxTokens cfg;
                      do_sample := false;
                      streamer := true |} ;;
       log StreamEnd ;;
       lastContent output
     else
       output <- callGenerator generator messages
                   {| max_new_tokens := maxTokens cfg;
                      do_sample := false;
                      streamer := false |} ;;
       response <- lastContent output ;;
       log (AssistantReply response) ;;
       log Blank ;;
       ret response)
    (fun error =>
       logError (ErrorDuringGeneration error) ;;
       throw error).

Definition demos : list string :=
  [ "Solve the equation: x^2 - 3x + 2 = 0";
    "What is the capital of Indonesia?";
    "Explain quantum computing in simple terms" ].

(** The [for] loop of [runDemoMode], from index [i], over the prompts that
    remain; [n] is [demos.length]. *)
Fixpoint demoLoop (generator : Generator) (remaining : list string)
    (i n : nat) : M unit :=
  match remaining with
  | [] => ret tt
  | prompt :: rest =>
      log (DemoHeader (i + 1) n) ;;
      log (UserPrompt prompt) ;;
      log Blank ;;
      _ <- generateResponse generator prompt true ;;
      (if (i <? n - 1)%nat then log Separator else ret tt) ;;
      demoLoop generator rest (i + 1) n
  end.

(** [runDemoMode] over a list of prompts. *)
Definition runDemoModeOn (prompts : list string) (generator : Generator) : M unit :=
  log DemoBanner ;;
  demoLoop generator prompts 0 (length prompts).

Definition runDemoMode (generator : Generator) : M unit :=
  runDemoModeOn demos generator.

(** [askQuestion], the callback loop of interactive mode.  [lines] are the
    lines the user enters, each delivered to the question then pending; when
    they run out the question stays pending. *)
Fixpoint askQuestion (generator : Generator) (lines : list string) : M unit :=
  emit Question ;;
  match lines with
  | [] => ret tt
  | input :: rest =>
      let userInput := trim input in
      if negb (truthy userInput) then
        askQuestion generator rest
      else if includes ["quit"; "exit"; "q"] (toLowerCase userInput) then
        log Goodbye ;;
        emit Close ;;
        setReadline Closed
      else if String.eqb (toLowerCase userInput) "clear" then
        emit Clear ;;
        displayBanner ;;
        askQuestion generator rest
      else
        log Blank ;;
        tryCatch
          (_ <- generateResponse generator userInput true ;; ret tt)
          (fun error => logError (InteractiveError error)) ;;
        askQuestion generator rest
  end.

Definition runInteractiveMode (generator : Generator) (lines : list string) : M unit :=
  log InteractiveBanner ;;
  setReadline Open ;;
  askQuestion generator lines.

Definition runSinglePrompt (generator : Generator) (prompt : string) : M unit :=
  log (UserPrompt prompt) ;;
  log Blank ;;
  _ <- generateResponse generator prompt true ;;
  ret tt.

(** [main]; [args] is [process.argv.slice(2)] and [lines] the lines typed
    on standard input. *)
Definition main (args lines : list string) : M unit :=
  tryCatch
    (displayBanner ;;
     generator <- initializePipeline ;;
     match args with
     | [] => runInteractiveMode generator lines
     | arg0 :: _ =>
         if String.eqb arg0 "--demo" then
           runDemoMode generator
         else if String.eqb arg0 "--prompt" then
           (if (length args <? 2)%nat then
              logError PromptRequiresArgument ;;
              log Usage ;;
              exit 1
            else ret tt) ;;
           let prompt := join " " (skipn 1 args) in
           runSinglePrompt generator prompt
         else
           logError (UnknownArgument arg0) ;;
           log Usage ;;
           exit 1
     end)
    (fun error =>
       logError (FatalError error) ;;
       exit 1).

(** The process as the operating system sees it once [main] has run: an
    explicit [process.exit], or exit code 0 when nothing is left to do, or
    still alive while a [readline] question is pending. *)
Definition status (r : Run Generator EngineState unit) : ProcessStatus :=
  match completion r with
  | Halt code => Exited code
  | Throw _ => Exited 1
  | Normal _ =>
      match readline (world r) with
      | Open => AwaitingInput
      | _ => Exited 0
      end
  end.

(** A run of [node src/main.js args] from engine state [st], on the input
    [lines]. *)
Definition node (args lines : list string) (st : EngineState) :
    Run Generator EngineState unit :=
  main args lines (mkWorld st NotCreated).

End Program.

Arguments status {Generator EngineState} r.

(** ** Reading a trace *)

Section Traces.

Context {Generator : Type}.

(** The generation calls of a trace, in order: the generator called, the
    conversation it was given and the options. *)
Definition generatorCalls (evs : list (Event Generator)) :
    list (Generator * Conversation * GenOptions) :=
  flat_map (fun ev =>
              match ev with
              | GeneratorCall g messages opts => [(g, messages, opts)]
              | _ => []
              end) evs.

(** The precisions at which a load was attempted, in order. *)
Definition pipelineCalls (evs : list (Event Generator)) : list string :=
  flat_map (fun ev =>
              match ev with
              | PipelineCall _ _ dtype => [dtype]
              | _ => []
              end) evs.

(** The failure reasons the loader reports ([Error loading model: ...]). *)
Definition loadFailures (evs : list (Event Generator)) : list Error :=
  flat_map (fun ev =>
              match ev with
              | LogError (ErrorLoadingModel e) => [e]
              | _ => []
              end) evs.

Definition isPipelineCall (ev : Event Generator) : bool :=
  match ev with
  | PipelineCall _ _ _ => true
  | _ => false
  end.

Definition isGeneratorCall (ev : Event Generator) : bool :=
  match ev with
  | GeneratorCall _ _ _ => true
  | _ => false
  end.

(** A generation call of the trace that asks for sampling. *)
Definition samples (ev : Event Generator) : bool :=
  match ev with
  | GeneratorCall _ _ opts => do_sample opts
  | _ => false
  end.

End Traces.

(** The conversation [generateResponse] builds for a prompt, and the
    options of its streaming call. *)
Definition singleTurn (prompt : string) : Conversation :=
  [ {| role := "user"; content := prompt |} ].

(** The options of a call of [generateResponse]. *)
Definition optionsOf (cfg : Config) (streaming : bool) : GenOptions :=
  {| max_new_tokens := maxTokens cfg; do_sample := false; streamer := streaming |}.

Definition streamingOptions (cfg : Config) : GenOptions := optionsOf cfg true.

(** The generation call the session modes make for a prompt: the generator,
    a conversation of that prompt alone, and the streaming options. *)
Definition callFor {Generator : Type} (cfg : Config) (g : Generator)
    (prompt : string) : Generator * Conversation * GenOptions :=
  (g, singleTurn prompt, streamingOptions cfg).

(** What [output[0].generated_text.at(-1).content] evaluates to: the text of
    the last message, or the [TypeError] of reading through [undefined]. *)
Definition replyOf (output : Output) : Error + string :=
  match output with
  | [] => inl "Cannot read properties of undefined (reading 'generated_text')"
  | o :: _ =>
      match rev (generated_text o) with
      | [] => inl "Cannot read properties of undefined (reading 'content')"
      | m :: _ => inr (content m)
      end
  end.

(** The console and load events of a start that succeeds: the banner and
    the messages of [initializePipeline] around its one [pipeline] call. *)
Definition boot {Generator : Type} (cfg : Config) : list (Event Generator) :=
  [ Log (Banner (model cfg) (dtype cfg) (maxTokens cfg));
    Log LoadingModel; Log FirstRunNotice; Log Blank;
    PipelineCall "text-generation" (model cfg) (dtype cfg);
    Log ModelLoaded; Log NpuActive; Log Blank ].

(** The events of a start whose load is rejected with [e]. *)
Definition bootFailure {Generator : Type} (cfg : Config) (e : Error) :
    list (Event Generator) :=
  [ Log (Banner (model cfg) (dtype cfg) (maxTokens cfg));
    Log LoadingModel; Log FirstRunNotice; Log Blank;
    PipelineCall "text-generation" (model cfg) (dtype cfg);
    LogError (ErrorLoadingModel e);
    LogError (FatalError e) ].

(** A run preceded by the events [evs]. *)
Definition prepend {Generator EngineState A} (evs : list (Event Generator))
    (r : Run Generator EngineState A) : Run Generator EngineState A :=
  mkRun (evs ++ events r) (world r) (completion r).

(** An event of a session after start-up: not a model load, and not a
    generation call that samples. *)
Definition tame {Generator : Type} (ev : Event Generator) : bool :=
  negb (isPipelineCall ev) && negb (samples ev).

(** A word that begins and ends with a character that is not white space
    is what [trim] leaves of it, however it is padded. *)
Definition solid (s : string) : Prop :=
  trimStart s = s /\ trimEnd s = s.

(** A program that leaves the [readline] interface as it found it. *)
Definition keepsReadline {Generator EngineState A}
    (p : Prog Generator EngineState A) : Prop :=
  forall w, readline (world (p w)) = readline w.

(** A program that never ends the process, whether it returns or throws. *)
Definition neverHalts {Generator EngineState A}
    (p : Prog Generator EngineState A) : Prop :=
  forall w code, completion (p w) <> Halt code.

(** ** The loader of the design, for comparison *)

Section DesignLoader.

Context {Generator : Type}.
Variable pipeline : string -> string -> string -> Error + Generator.

(** The loader as the design words it (Model Loader with Fallback): try the
    candidate precisions in the given order, stop at the first that loads
    and return the handle with the precision used; when every candidate
    fails, signal the failure reasons, one per candidate, in attempt order.
    The first component lists the candidates attempted. *)
Fixpoint designLoader (model : string) (candidates : list string) :
    list string * (list Error + Generator * string) :=
  match candidates with
  | [] => ([], inl [])
  | precision :: rest =>
      match pipeline "text-generation" model precision with
      | inr handle => ([precision], inr (handle, precision))
      | inl reason =>
          let '(attempted, result) := designLoader model rest in
          (precision :: attempted,
           match result with
           | inl reasons => inl (reason :: reasons)
           | inr found => inr found
           end)
      end
  end.

End DesignLoader.

(** ** Sample runtimes *)

Module Sample.

(** A generator handle that remembers what it was loaded from. *)
Inductive Handle : Type :=
| Loaded (model dtype : string).

(** A runtime that loads any precision. *)
Definition acceptAll (task model dtype : string) : Error + Handle :=
  inr (Loaded model dtype).

(** Hardware without float16 support on which only the [fp32] weights
    load; every other precision is rejected with the error of the
    troubleshooting guide. *)
Definition onlyFp32 (task model dtype : string) : Error + Handle :=
  if String.eqb dtype "fp32" then inr (Loaded model dtype)
  else inl ("Tensor.data must be a typed array (4) for float16 tensors: " ++ dtype)%string.

(** A machine on which no precision loads (offline, empty cache). *)
Definition rejectAll (task model dtype : string) : Error + Handle :=
  inl ("fetch failed: " ++ dtype)%string.

(** The precisions of the troubleshooting guide, from the configured one
    down to the most compatible. *)
Definition candidates : list string := [dtype CONFIG; "q8"; "fp32"].

Definition lastUser (messages : Conversation) : string :=
  match rev messages with
  | m :: _ => content m
  | [] => ""
  end.

Definition reply (messages : Conversation) (text : string) : Output :=
  [ {| generated_text := messages ++ [ {| role := "assistant"; content := text |} ] |} ].

(** A generator that echoes the last user turn under greedy decoding, and
    whose reply depends on the random source when asked to sample.  The
    engine state counts the calls made. *)
Definition echo (rnd : nat) (g : Handle) (st : nat) (messages : Conversation)
    (opts : GenOptions) : (Error + Output) * nat :=
  (inr (reply messages
          (if do_sample opts
           then (if Nat.even (rnd + st) then "heads" else "tails")
           else ("echo: " ++ lastUser messages)%string)),
   S st).

(** A generator whose first call fails (a transient runtime error) and
    which echoes afterwards. *)
Definition failFirst (rnd : nat) (g : Handle) (st : nat) (messages : Conversation)
    (opts : GenOptions) : (Error + Output) * nat :=
  match st with
  | O => (inl "transient runtime error", S st)
  | _ => echo rnd g st messages opts
  end.

End Sample.

Section Dispatch.

Context {Generator EngineState Entropy : Type}.
Variable invoke :
  Entropy -> Generator -> EngineState -> Conversation -> GenOptions ->
  (Error + Output) * EngineState.
Variable rnd : Entropy.
Variable cfg : Config.

(** What [main] runs inside its [try] block once the model is loaded: the
    mode that the arguments select. *)
Definition dispatch (g : Generator) (args lines : list string) : Prog Generator EngineState unit :=
  match args with
  | [] => runInteractiveMode invoke rnd cfg g lines
  | arg0 :: _ =>
      if String.eqb arg0 "--demo" then
        runDemoMode invoke rnd cfg g
      else if String.eqb arg0 "--prompt" then
        (if (length args <? 2)%nat then
           logError PromptRequiresArgument ;;
           log Usage ;;
           exit 1
         else ret tt) ;;
        runSinglePrompt invoke rnd cfg g (join " " (skipn 1 args))
      else
        logError (UnknownArgument arg0) ;;
        log Usage ;;
        exit 1
  end.

End Dispatch.

(** ** Reading the lines of an interactive session *)

(** What the callback of [askQuestion] makes of an input line, by the tests
    it runs in order: empty once trimmed, an exit keyword, the [clear]
    keyword, or a prompt (the trimmed line, in the case it was typed). *)
Inductive LineKind : Type :=
| BlankLine
| ExitLine
| ClearLine
| PromptLine (text : string).

Definition classify (input : string) : LineKind :=
  let userInput := trim input in
  if negb (truthy userInput) then BlankLine
  else if includes ["quit"; "exit"; "q"] (toLowerCase userInput) then ExitLine
  else if String.eqb (toLowerCase userInput) "clear" then ClearLine
  else PromptLine userInput.

(** The prompts among the lines entered before the first exit keyword. *)
Fixpoint sessionPrompts (lines : list string) : list string :=
  match lines with
  | [] => []
  | input :: rest =>
      match classify input with
      | ExitLine => []
      | PromptLine text => text :: sessionPrompts rest
      | _ => sessionPrompts rest
      end
  end.




(** The errors written to the console, in order, each with the site that
    wrote it. *)
Definition reportedErrors {Generator : Type} (evs : list (Event Generator)) :
    list Line :=
  flat_map (fun ev => match ev with
                      | LogError l => [l]
                      | _ => []
                      end) evs.

(** A runtime whose generator answers every call with a reply that ends in
    a message. *)
Definition alwaysAnswers {Generator EngineState Entropy : Type}
    (invoke : Entropy -> Generator -> EngineState -> Conversation -> GenOptions ->
              (Error + Output) * EngineState)
    (rnd : Entropy) (g : Generator) : Prop :=
  forall st messages opts,
    exists output text st',
      invoke rnd g st messages opts = (inr output, st') /\
      replyOf output = inr text.


(** ** The scripts beside the program: [src/test.js], [src/diagnostic.js] *)

Module Scripts.

(** What the scripts write to the console. *)
Inductive ScriptLine : Type :=
| TestingModel
| TestLoading
| TestLoaded
| TestGenerating
| TestCompleted
| FullResponse (text : string)
| TryingToLoad (model : string)
| SmallModelNote
| DiagLoading
| LoadSuccess
| RunningInference
| InferenceOutput (text : string)
| InferenceWorks
| TestFailed (message : string)
| PleaseCheck
| FullError (error : Error).

(** What a text-completion call of the generator resolves to: an array of
    [{ generated_text }] where [generated_text] is a string. *)
Record Completed : Type := mkCompleted {
  completed_text : string
}.

Inductive ScriptEvent (Generator : Type) : Type :=
| Say (l : ScriptLine)
| SayError (l : ScriptLine)
| Load (task model dtype : string)
| Chat (g : Generator) (messages : Conversation) (opts : GenOptions)
| Complete (g : Generator) (prompt : string) (opts : GenOptions).
Arguments Say {Generator} l.
Arguments SayError {Generator} l.
Arguments Load {Generator} task model dtype.
Arguments Chat {Generator} g messages opts.
Arguments Complete {Generator} g prompt opts.

Section WithRuntime.

Context {Generator EngineState Entropy : Type}.
Variable pipeline : string -> string -> string -> Error + Generator.
Variable invoke :
  Entropy -> Generator -> EngineState -> Conversation -> GenOptions ->
  (Error + Output) * EngineState.

(** A call of the generator on a plain string, as [diagnostic.js] makes. *)
Variable invokeText :
  Entropy -> Generator -> EngineState -> string -> GenOptions ->
  (Error + list Completed) * EngineState.
Variable rnd : Entropy.

(** [src/test.js], a module of top-level statements with no [try]: the
    first rejection or exception ends it ([Throw]). *)
Definition testScript (st : EngineState) :
    list (ScriptEvent Generator) * EngineState * Completion unit :=
  let model := "onnx-community/DeepSeek-R1-Distill-Qwen-1.5B-ONNX" in
  let loading :=
    [ Say TestingModel; Say TestLoading; Load "text-generation" model "q4f16" ] in
  match pipeline "text-generation" model "q4f16" with
  | inl e => (loading, st, Throw e)
  | inr generator =>
      let messages :=
        [ {| role := "user"; content := "Solve the equation: x^2 - 3x + 2 = 0" |} ] in
      let opts := {| max_new_tokens := 512; do_sample := false; streamer := true |} in
      let called :=
        loading ++ [ Say TestLoaded; Say TestGenerating; Chat generator messages opts ] in
      let '(res, st') := invoke rnd generator st messages opts in
      match res with
      | inl e => (called, st', Throw e)
      | inr output =>
          match replyOf output with
          | inl e => (called ++ [ Say TestCompleted ], st', Throw e)
          | inr text =>
              (called ++ [ Say TestCompleted; Say (FullResponse text) ], st', Normal tt)
          end
      end
  end.

(** The exit code of a script run by [node]: 0 when the module ran to its
    end, 1 when an exception was left uncaught. *)
Definition scriptStatus (c : Completion unit) : ProcessStatus :=
  match c with
  | Normal _ => Exited 0
  | Throw _ => Exited 1
  | Halt code => Exited code
  end.

(** [output[0].generated_text] inside a template string. *)
Definition firstCompletion (output : list Completed) : Error + string :=
  match output with
  | [] => inl "Cannot read properties of undefined (reading 'generated_text')"
  | o :: _ => inr (completed_text o)
  end.

(** The [catch] block of [testModelLoad]. *)
Definition testFailed (error : Error) : list (ScriptEvent Generator) :=
  [ SayError (TestFailed error); SayError PleaseCheck; SayError (FullError error) ].

(** [testModelLoad] of [src/diagnostic.js]. *)
Definition testModelLoad (st : EngineState) :
    list (ScriptEvent Generator) * EngineState * Completion unit :=
  let testModel := "Xenova/gpt2" in
  let loading :=
    [ Say (TryingToLoad testModel); Say SmallModelNote; Say DiagLoading;
      Load "text-generation" testModel "fp32" ] in
  match pipeline "text-generation" testModel "fp32" with
  | inl error => (loading ++ testFailed error, st, Normal tt)
  | inr generator =>
      let opts := {| max_new_tokens := 10; do_sample := false; streamer := false |} in
      let called :=
        loading ++ [ Say LoadSuccess; Say RunningInference;
                     Complete generator "Hello, " opts ] in
      let '(res, st') := invokeText rnd generator st "Hello, " opts in
      match res with
      | inl error => (called ++ testFailed error, st', Normal tt)
      | inr output =>
          match firstCompletion output with
          | inl error => (called ++ testFailed error, st', Normal tt)
          | inr text =>
              (called ++ [ Say (InferenceOutput text); Say InferenceWorks ], st',
               Normal tt)
          end
      end
  end.

End WithRuntime.

(** The library calls of a script, in order. *)
Definition libraryCalls {Generator : Type} (evs : list (ScriptEvent Generator)) :
    list (ScriptEvent Generator) :=
  filter (fun ev => match ev with
                    | Load _ _ _ | Chat _ _ _ | Complete _ _ _ => true
                    | _ => false
                    end) evs.

(** The library calls of a run of the program, as events of a script. *)
Definition asScriptCalls {Generator : Type} (evs : list (Event Generator)) :
    list (ScriptEvent Generator) :=
  flat_map (fun ev => match ev with
                      | PipelineCall task model dtype => [Load task model dtype]
                      | GeneratorCall g messages opts => [Chat g messages opts]
                      | _ => []
                      end) evs.

End Scripts.

(** ** More sample runtimes *)

Module MoreSamples.

(** A generator that resolves with an empty array. *)
Definition emptyOutput (rnd : nat) (g : Sample.Handle) (st : nat)
    (messages : Conversation) (opts : GenOptions) : (Error + Output) * nat :=
  (inr [], S st).

(** A generator that always rejects. *)
Definition alwaysFails (rnd : nat) (g : Sample.Handle) (st : nat)
    (messages : Conversation) (opts : GenOptions) : (Error + Output) * nat :=
  (inl "out of memory", S st).

(** A text completion that appends a fixed continuation. *)
Definition continue (rnd : nat) (g : Sample.Handle) (st : nat)
    (prompt : string) (opts : GenOptions) : (Error + list Scripts.Completed) * nat :=
  (inr [ {| Scripts.completed_text := (prompt ++ "world")%string |} ], S st).

(** A text completion that rejects. *)
Definition cannotComplete (rnd : nat) (g : Sample.Handle) (st : nat)
    (prompt : string) (opts : GenOptions) : (Error + list Scripts.Completed) * nat :=
  (inl "session closed", st).

End MoreSamples.

(** * Properties *)

(** ** Strings *)

Module JsStringFacts.

Local Open Scope string_scope.

Example trim_padded_word : trim "   Quit  " = "Quit".
Proof. reflexivity. Qed.

Example trim_keeps_inner_space : trim " what is  AI? " = "what is  AI?".
Proof. reflexivity. Qed.

Example trim_tab_and_return :
  trim (String (ascii_of_nat 9) ("q" ++ String (ascii_of_nat 13) "")) = "q".
Proof. reflexivity. Qed.

Example toLowerCase_mixed : toLowerCase "ExIt 42!" = "exit 42!".
Proof. reflexivity. Qed.

Example includes_keyword :
  includes ["quit"; "exit"; "q"] "q" = true /\
  includes ["quit"; "exit"; "q"] "qu" = false.
Proof. split; reflexivity. Qed.

Example join_three : join " " ["What"; "is"; "AI?"] = "What is AI?".
Proof. reflexivity. Qed.

Example join_keeps_empty_arguments : join " " ["a"; ""; "b"] = "a  b".
Proof. reflexivity. Qed.

Lemma lowerChar_whitespace c : isWhiteSpace (lowerChar c) = isWhiteSpace c.
Proof.
  destruct c as [[] [] [] [] [] [] [] []]; reflexivity.
Qed.

Lemma trimStart_whitespace pre s :
  allWhiteSpace pre = true -> trimStart (pre ++ s) = trimStart s.
Proof.
  induction pre as [|c pre IH]; simpl; intros H; [reflexivity|].
  apply andb_true_iff in H as [Hc Hpre].
  rewrite Hc. now apply IH.
Qed.

Lemma trimEnd_all_whitespace s : allWhiteSpace s = true -> trimEnd s = "".
Proof.
  induction s as [|c s IH]; simpl; intros H; [reflexivity|].
  apply andb_true_iff in H as [Hc Hs].
  now rewrite (IH Hs), Hc.
Qed.

Lemma trimEnd_whitespace s post :
  allWhiteSpace post = true -> trimEnd (s ++ post) = trimEnd s.
Proof.
  intros H. induction s as [|c s IH]; simpl.
  - now apply trimEnd_all_whitespace.
  - now rewrite IH.
Qed.

Lemma append_empty_r s : s ++ "" = s.
Proof. induction s; simpl; congruence. Qed.

Lemma trim_all_whitespace s : allWhiteSpace s = true -> trim s = "".
Proof.
  intros H. unfold trim.
  rewrite <- (append_empty_r s).
  now rewrite (trimStart_whitespace _ _ H).
Qed.

Lemma trim_padded pre s post :
  allWhiteSpace pre = true -> allWhiteSpace post = true -> solid s ->
  trim (pre ++ s ++ post) = s.
Proof.
  intros Hpre Hpost [Hs He]. unfold trim.
  rewrite (trimStart_whitespace _ _ Hpre).
  destruct s as [|c s].
  - simpl. exact (trim_all_whitespace post Hpost).
  - simpl in Hs. simpl. destruct (isWhiteSpace c) eqn:Hc.
    + exfalso. clear - Hs.
      assert (L : forall t, (String.length (trimStart t) <= String.length t)%nat).
      { induction t as [|d t IH]; simpl; [lia|]. destruct (isWhiteSpace d); simpl; lia. }
      specialize (L s). rewrite Hs in L. simpl in L. lia.
    + change (String c (s ++ post)) with ((String c s) ++ post).
      now rewrite (trimEnd_whitespace _ _ Hpost).
Qed.

(** The spellings of an exit keyword are solid words. *)
Lemma exit_keyword_solid kw :
  In (toLowerCase kw) ["quit"; "exit"; "q"] -> solid kw /\ kw <> "".
Proof.
  assert (W : forall c d : ascii, d = lowerChar c -> isWhiteSpace d = false ->
                                  isWhiteSpace c = false).
  { intros c d -> H. now rewrite lowerChar_whitespace in H. }
  intros H. simpl in H.
  destruct H as [H|[H|[H|[]]]];
    repeat (destruct kw as [|? kw]; simpl in H; try discriminate H);
    injection H as ?; intros;
    repeat match goal with
           | E : _ = lowerChar ?c |- _ =>
               let F := fresh "F" in
               pose proof (W _ _ E eq_refl) as F; clear E
           end;
    (split; [split; simpl|discriminate]);
    repeat match goal with F : isWhiteSpace _ = false |- _ => rewrite F; clear F end;
    reflexivity.
Qed.

End JsStringFacts.

(** ** The effects *)

Module EffectsFacts.

Section Laws.

Context {Generator EngineState : Type}.
Local Notation "'M' A" := (Prog Generator EngineState A) (at level 10, A at level 9).

(** How a sequence and a [try]/[catch] run, by the way their first part
    ends. *)
Lemma bind_normal {A B} (p : M A) (k : A -> M B) w evs w1 a :
  p w = mkRun evs w1 (Normal a) -> bind p k w = prepend evs (k a w1).
Proof. unfold bind, prepend. intros ->. now destruct (k a w1). Qed.

Lemma bind_throw {A B} (p : M A) (k : A -> M B) w evs w1 e :
  p w = mkRun evs w1 (Throw e) -> bind p k w = mkRun evs w1 (Throw e).
Proof. unfold bind. now intros ->. Qed.

Lemma bind_halt {A B} (p : M A) (k : A -> M B) w evs w1 code :
  p w = mkRun evs w1 (Halt code) -> bind p k w = mkRun evs w1 (Halt code).
Proof. unfold bind. now intros ->. Qed.

Lemma tryCatch_normal {A} (p : M A) (h : Error -> M A) w evs w1 a :
  p w = mkRun evs w1 (Normal a) -> tryCatch p h w = mkRun evs w1 (Normal a).
Proof. unfold tryCatch. now intros ->. Qed.

Lemma tryCatch_throw {A} (p : M A) (h : Error -> M A) w evs w1 e :
  p w = mkRun evs w1 (Throw e) -> tryCatch p h w = prepend evs (h e w1).
Proof. unfold tryCatch, prepend. intros ->. now destruct (h e w1). Qed.

Lemma tryCatch_halt {A} (p : M A) (h : Error -> M A) w evs w1 code :
  p w = mkRun evs w1 (Halt code) -> tryCatch p h w = mkRun evs w1 (Halt code).
Proof. unfold tryCatch. now intros ->. Qed.

Lemma prepend_prepend {A} evs evs' (r : Run Generator EngineState A) :
  prepend evs (prepend evs' r) = prepend (evs ++ evs') r.
Proof. unfold prepend. simpl. now rewrite app_assoc. Qed.

Lemma events_bind {A B} (p : M A) (k : A -> M B) w :
  events (bind p k w) =
  events (p w) ++
  match completion (p w) with
  | Normal a => events (k a (world (p w)))
  | _ => []
  end.
Proof.
  unfold bind. destruct (p w) as [evs w1 [a|e|c]]; simpl;
    [now destruct (k a w1)| |]; now rewrite app_nil_r.
Qed.

(** A property of every event of a trace goes through sequencing. *)
Lemma Forall_bind (P : Event Generator -> Prop) {A B} (p : M A) (k : A -> M B) :
  (forall w, Forall P (events (p w))) ->
  (forall a w, Forall P (events (k a w))) ->
  forall w, Forall P (events (bind p k w)).
Proof.
  intros Hp Hk w. rewrite events_bind. apply Forall_app. split; [apply Hp|].
  destruct (completion (p w)); auto.
Qed.

(** Two programs that agree pointwise are interchangeable in a sequence
    and under [try]/[catch]. *)
Lemma bind_ext {A B} (p p' : M A) (k k' : A -> M B) :
  (forall w, p w = p' w) -> (forall a w, k a w = k' a w) ->
  forall w, bind p k w = bind p' k' w.
Proof.
  intros Hp Hk w. unfold bind. rewrite Hp.
  destruct (p' w) as [evs w1 [a|e|c]]; [now rewrite Hk|reflexivity|reflexivity].
Qed.

Lemma tryCatch_ext {A} (p p' : M A) (h h' : Error -> M A) :
  (forall w, p w = p' w) -> (forall e w, h e w = h' e w) ->
  forall w, tryCatch p h w = tryCatch p' h' w.
Proof.
  intros Hp Hh w. unfold tryCatch. rewrite Hp.
  destruct (p' w) as [evs w1 [a|e|c]]; [reflexivity|now rewrite Hh|reflexivity].
Qed.

End Laws.

End EffectsFacts.
Import EffectsFacts.

Lemma generatorCalls_app {Generator} (a b : list (Event Generator)) :
  generatorCalls (a ++ b) = generatorCalls a ++ generatorCalls b.
Proof. apply flat_map_app. Qed.

(** Console and [readline] events are not generation calls. *)
Lemma generatorCalls_skip {Generator} (ev : Event Generator) evs :
  isGeneratorCall ev = false -> generatorCalls (ev :: evs) = generatorCalls evs.
Proof. destruct ev; intros H; try discriminate H; reflexivity. Qed.

Lemma generatorCalls_boot {Generator} cfg (evs : list (Event Generator)) :
  generatorCalls (boot cfg ++ evs) = generatorCalls evs.
Proof. reflexivity. Qed.

Lemma pipelineCalls_app {Generator} (a b : list (Event Generator)) :
  pipelineCalls (a ++ b) = pipelineCalls a ++ pipelineCalls b.
Proof. apply flat_map_app. Qed.

Lemma pipelineCalls_none {Generator} (evs : list (Event Generator)) :
  Forall (fun ev => isPipelineCall ev = false) evs -> pipelineCalls evs = [].
Proof.
  induction 1 as [|ev evs H _ IH]; [reflexivity|].
  destruct ev; simpl in *; try discriminate; exact IH.
Qed.

Lemma tame_no_pipeline {Generator} (evs : list (Event Generator)) :
  Forall (fun ev => tame ev = true) evs -> pipelineCalls evs = [].
Proof.
  intros H. apply pipelineCalls_none. eapply Forall_impl; [|exact H].
  intros ev E. unfold tame in E. apply andb_true_iff in E as [E _].
  now destruct (isPipelineCall ev).
Qed.

Lemma tame_no_sampling {Generator} (evs : list (Event Generator)) :
  Forall (fun ev => tame ev = true) evs -> Forall (fun ev => samples ev = false) evs.
Proof.
  apply Forall_impl. intros ev E. unfold tame in E.
  apply andb_true_iff in E as [_ E]. now destruct (samples ev).
Qed.

(** ** One generation call *)

Section ProgramFacts.

Context {Generator EngineState Entropy : Type}.
Variable pipeline : string -> string -> string -> Error + Generator.
Variable invoke :
  Entropy -> Generator -> EngineState -> Conversation -> GenOptions ->
  (Error + Output) * EngineState.
Variable rnd : Entropy.
Variable cfg : Config.

Local Notation "'M' A" := (Prog Generator EngineState A) (at level 10, A at level 9).

(** The run of [generateResponse], by what the runtime answers: a reply
    whose last message is returned, a malformed reply, or an error; the last
    two are reported and rethrown. *)
Lemma generateResponse_run g p s w :
  generateResponse invoke rnd cfg g p s w =
  let '(res, st') := invoke rnd g (engine w) (singleTurn p) (optionsOf cfg s) in
  let w' := mkWorld st' (readline w) in
  let call := GeneratorCall g (singleTurn p) (optionsOf cfg s) in
  match res with
  | inl e => mkRun ((if s then [Log AssistantHeader] else []) ++
                    [call; LogError (ErrorDuringGeneration e)]) w' (Throw e)
  | inr output =>
      match replyOf output with
      | inl e => mkRun ((if s then [Log AssistantHeader; call; Log StreamEnd]
                         else [call]) ++ [LogError (ErrorDuringGeneration e)])
                       w' (Throw e)
      | inr text =>
          mkRun (if s then [Log AssistantHeader; call; Log StreamEnd]
                 else [call; Log (AssistantReply text); Log Blank])
                w' (Normal text)
      end
  end.
Proof.
  unfold generateResponse, tryCatch, bind, callGenerator, lastContent, replyOf,
    log, logError, emit, ret, throw, singleTurn, optionsOf.
  destruct s; cbn [events world completion engine readline app];
    destruct (invoke rnd g (engine w) _ _) as [[e|[|o out]] st'];
    cbn [events world completion engine readline app]; try reflexivity;
    destruct (rev (generated_text o)) as [|m ms]; reflexivity.
Qed.

(** Whatever the runtime answers, [generateResponse] calls the generator
    exactly once, on the conversation made of the prompt alone. *)
Lemma generateResponse_calls g p s w :
  generatorCalls (events (generateResponse invoke rnd cfg g p s w)) =
  [(g, singleTurn p, optionsOf cfg s)].
Proof.
  rewrite generateResponse_run.
  destruct (invoke rnd g (engine w) _ _) as [[e|out] st'];
    [|destruct (replyOf out)]; destruct s; reflexivity.
Qed.

Lemma generateResponse_tame g p s w :
  Forall (fun ev => tame ev = true)
         (events (generateResponse invoke rnd cfg g p s w)).
Proof.
  rewrite generateResponse_run.
  destruct (invoke rnd g (engine w) _ _) as [[e|out] st'];
    [|destruct (replyOf out)]; destruct s; repeat constructor.
Qed.

Lemma generateResponse_keepsReadline g p s :
  keepsReadline (generateResponse invoke rnd cfg g p s).
Proof.
  intros w. rewrite generateResponse_run.
  destruct (invoke rnd g (engine w) _ _) as [[e|out] st'];
    [|destruct (replyOf out)]; reflexivity.
Qed.

Lemma generateResponse_neverHalts g p s :
  neverHalts (generateResponse invoke rnd cfg g p s).
Proof.
  intros w code. rewrite generateResponse_run.
  destruct (invoke rnd g (engine w) _ _) as [[e|out] st'];
    [|destruct (replyOf out)]; discriminate.
Qed.

(** A failed call is reported and rethrown: the caller sees the error. *)
Lemma generateResponse_rethrows g p s w e st' :
  invoke rnd g (engine w) (singleTurn p) (optionsOf cfg s) = (inl e, st') ->
  generateResponse invoke rnd cfg g p s w =
  mkRun ((if s then [Log AssistantHeader] else []) ++
         [GeneratorCall g (singleTurn p) (optionsOf cfg s);
          LogError (ErrorDuringGeneration e)])
        (mkWorld st' (readline w)) (Throw e).
Proof. intros H. rewrite generateResponse_run, H. reflexivity. Qed.

(** ** Interactive mode, one line at a time *)

Lemma askQuestion_nil g w :
  askQuestion invoke rnd cfg g [] w = mkRun [Question] w (Normal tt).
Proof. reflexivity. Qed.

(** A line that is empty once trimmed: the question is asked again. *)
Lemma askQuestion_blank g line rest w :
  truthy (trim line) = false ->
  askQuestion invoke rnd cfg g (line :: rest) w =
  prepend [Question] (askQuestion invoke rnd cfg g rest w).
Proof.
  intros H. cbn [askQuestion]. rewrite H.
  now rewrite (bind_normal (emit Question) _ w [Question] w tt eq_refl).
Qed.

(** An exit keyword: the interface is closed and no question follows. *)
Lemma askQuestion_exit g line rest w :
  truthy (trim line) = true ->
  includes ["quit"; "exit"; "q"] (toLowerCase (trim line)) = true ->
  askQuestion invoke rnd cfg g (line :: rest) w =
  mkRun [Question; Log Goodbye; Close] (mkWorld (engine w) Closed) (Normal tt).
Proof.
  intros H1 H2. cbn [askQuestion]. rewrite H1, H2. reflexivity.
Qed.

Lemma askQuestion_clear g line rest w :
  truthy (trim line) = true ->
  includes ["quit"; "exit"; "q"] (toLowerCase (trim line)) = false ->
  String.eqb (toLowerCase (trim line)) "clear" = true ->
  askQuestion invoke rnd cfg g (line :: rest) w =
  prepend [Question; Clear; Log (Banner (model cfg) (dtype cfg) (maxTokens cfg))]
    (askQuestion invoke rnd cfg g rest w).
Proof.
  intros H1 H2 H3. cbn [askQuestion]. rewrite H1, H2, H3.
  rewrite (bind_normal (emit Question) _ w [Question] w tt eq_refl). cbn [negb].
  rewrite (bind_normal (emit Clear) _ w [Clear] w tt eq_refl). cbv beta.
  rewrite (bind_normal (displayBanner cfg) _ w
             [Log (Banner (model cfg) (dtype cfg) (maxTokens cfg))] w tt eq_refl).
  now rewrite !prepend_prepend.
Qed.

(** Any other line is a prompt: one generation call, whose error, if any,
    is reported, and the question is asked again. *)
Lemma askQuestion_prompt g line rest w :
  truthy (trim line) = true ->
  includes ["quit"; "exit"; "q"] (toLowerCase (trim line)) = false ->
  String.eqb (toLowerCase (trim line)) "clear" = false ->
  askQuestion invoke rnd cfg g (line :: rest) w =
  let r1 := generateResponse invoke rnd cfg g (trim line) true w in
  prepend (Question :: Log Blank :: events r1 ++
             match completion r1 with
             | Throw e => [LogError (InteractiveError e)]
             | _ => []
             end)
    (askQuestion invoke rnd cfg g rest (world r1)).
Proof.
  intros H1 H2 H3. cbn [askQuestion]. rewrite H1, H2, H3. clear H1 H2 H3.
  pose proof (generateResponse_neverHalts g (trim line) true w) as NH.
  rewrite (bind_normal (emit Question) _ w [Question] w tt eq_refl). cbn [negb].
  rewrite (bind_normal (log Blank) _ w [Log Blank] w tt eq_refl). cbv beta.
  rewrite prepend_prepend.
  destruct (generateResponse invoke rnd cfg g (trim line) true w)
    as [evs w1 [a|e|c]] eqn:E; cbn [events world completion].
  - erewrite (bind_normal (tryCatch _ _) _ w evs w1 tt).
    + rewrite prepend_prepend. cbn [app]. now rewrite app_nil_r.
    + apply tryCatch_normal. rewrite (bind_normal _ _ w evs w1 a E).
      unfold prepend, ret; cbn [events world completion]. now rewrite app_nil_r.
  - erewrite (bind_normal (tryCatch _ _) _ w (evs ++ [LogError (InteractiveError e)]) w1 tt).
    + rewrite prepend_prepend. reflexivity.
    + rewrite (tryCatch_throw _ _ w evs w1 e); [reflexivity|].
      now rewrite (bind_throw _ _ w evs w1 e E).
  - now destruct (NH c).
Qed.

(** Every line falls in one of the four cases. *)
Ltac line_cases line H1 H2 H3 :=
  destruct (truthy (trim line)) eqn:H1;
  [ destruct (includes ["quit"; "exit"; "q"] (toLowerCase (trim line))) eqn:H2;
    [ rewrite (askQuestion_exit _ _ _ _ H1 H2)
    | destruct (String.eqb (toLowerCase (trim line)) "clear") eqn:H3;
      [ rewrite (askQuestion_clear _ _ _ _ H1 H2 H3)
      | rewrite (askQuestion_prompt _ _ _ _ H1 H2 H3) ] ]
  | rewrite (askQuestion_blank _ _ _ _ H1) ].

(** Interactive mode never throws and never ends the process by itself:
    it returns, with the interface closed or a question pending. *)
Lemma askQuestion_completes g lines :
  forall w, completion (askQuestion invoke rnd cfg g lines w) = Normal tt.
Proof.
  induction lines as [|line rest IH]; intros w; [reflexivity|].
  line_cases line H1 H2 H3; cbn [prepend completion]; try reflexivity; apply IH.
Qed.

Lemma askQuestion_readline g lines :
  forall w, readline w = Open ->
    readline (world (askQuestion invoke rnd cfg g lines w)) = Open \/
    readline (world (askQuestion invoke rnd cfg g lines w)) = Closed.
Proof.
  induction lines as [|line rest IH]; intros w Hw; [left; exact Hw|].
  line_cases line H1 H2 H3; cbn [prepend world readline]; auto.
  apply IH. now rewrite generateResponse_keepsReadline.
Qed.

Lemma askQuestion_tame g lines :
  forall w, Forall (fun ev => tame ev = true)
                   (events (askQuestion invoke rnd cfg g lines w)).
Proof.
  induction lines as [|line rest IH]; intros w; [repeat constructor|].
  line_cases line H1 H2 H3; cbn [prepend events]; repeat constructor; auto.
  rewrite !Forall_app. repeat split; auto using generateResponse_tame.
  destruct (completion _); repeat constructor.
Qed.

Lemma runInteractiveMode_run g lines w :
  runInteractiveMode invoke rnd cfg g lines w =
  prepend [Log InteractiveBanner]
    (askQuestion invoke rnd cfg g lines (mkWorld (engine w) Open)).
Proof.
  unfold runInteractiveMode.
  rewrite (bind_normal (log InteractiveBanner) _ w [Log InteractiveBanner] w tt eq_refl).
  cbv beta.
  now rewrite (bind_normal (setReadline Open) _ w [] (mkWorld (engine w) Open) tt eq_refl).
Qed.

(** ** Start-up *)

Lemma initializePipeline_loaded g (w : World EngineState) :
  pipeline "text-generation" (model cfg) (dtype cfg) = inr g ->
  initializePipeline pipeline cfg w =
  mkRun [ Log LoadingModel; Log FirstRunNotice; Log Blank;
          PipelineCall "text-generation" (model cfg) (dtype cfg);
          Log ModelLoaded; Log NpuActive; Log Blank ] w (Normal g).
Proof.
  intros H. unfold initializePipeline, callPipeline, tryCatch, bind, log, emit, ret.
  rewrite H. reflexivity.
Qed.

Lemma initializePipeline_rejected e (w : World EngineState) :
  pipeline "text-generation" (model cfg) (dtype cfg) = inl e ->
  initializePipeline pipeline cfg w =
  mkRun [ Log LoadingModel; Log FirstRunNotice; Log Blank;
          PipelineCall "text-generation" (model cfg) (dtype cfg);
          LogError (ErrorLoadingModel e) ] w (Throw e).
Proof.
  intros H. unfold initializePipeline, callPipeline, tryCatch, bind, log,
    logError, emit, ret, throw.
  rewrite H. reflexivity.
Qed.

(** A rejected load is fatal in every mode: [main] reports it and exits
    with code 1 before it looks at the arguments. *)
Lemma main_load_rejected e args lines (w : World EngineState) :
  pipeline "text-generation" (model cfg) (dtype cfg) = inl e ->
  main pipeline invoke rnd cfg args lines w = mkRun (bootFailure cfg e) w (Halt 1).
Proof.
  intros H. unfold main.
  erewrite tryCatch_throw.
  2:{ rewrite (bind_normal (displayBanner cfg) _ w
                 [Log (Banner (model cfg) (dtype cfg) (maxTokens cfg))] w tt eq_refl).
      cbv beta. erewrite bind_throw by (apply initializePipeline_rejected; exact H).
      reflexivity. }
  reflexivity.
Qed.

(** After a load that succeeds [main] runs the mode the arguments select;
    what the mode throws is fatal. *)
Lemma main_loaded g args lines (w : World EngineState) :
  pipeline "text-generation" (model cfg) (dtype cfg) = inr g ->
  main pipeline invoke rnd cfg args lines w =
  let r := dispatch invoke rnd cfg g args lines w in
  match completion r with
  | Throw e => mkRun (boot cfg ++ events r ++ [LogError (FatalError e)]) (world r) (Halt 1)
  | c => mkRun (boot cfg ++ events r) (world r) c
  end.
Proof.
  intros H. unfold main.
  fold (dispatch invoke rnd cfg).
  match goal with
  | |- tryCatch ?p ?h w = _ =>
      assert (E : p w = prepend (boot cfg) (dispatch invoke rnd cfg g args lines w))
  end.
  { rewrite (bind_normal (displayBanner cfg) _ w
               [Log (Banner (model cfg) (dtype cfg) (maxTokens cfg))] w tt eq_refl).
    cbv beta. erewrite bind_normal by (apply initializePipeline_loaded; exact H).
    now rewrite prepend_prepend. }
  cbv zeta.
  destruct (dispatch invoke rnd cfg g args lines w) as [evs w' [a|e|c]];
    cbn [events world completion prepend] in *.
  - now erewrite tryCatch_normal by exact E.
  - erewrite tryCatch_throw by exact E. reflexivity.
  - now erewrite tryCatch_halt by exact E.
Qed.

(** ** Demo mode, one prompt at a time *)

Lemma demoLoop_cons g prompt rest i n w :
  demoLoop invoke rnd cfg g (prompt :: rest) i n w =
  let r1 := generateResponse invoke rnd cfg g prompt true w in
  let header := [Log (DemoHeader (i + 1) n); Log (UserPrompt prompt); Log Blank] in
  match completion r1 with
  | Normal _ =>
      prepend (header ++ events r1 ++
               (if (i <? n - 1)%nat then [Log Separator] else []))
        (demoLoop invoke rnd cfg g rest (i + 1) n (world r1))
  | Throw e => mkRun (header ++ events r1) (world r1) (Throw e)
  | Halt code => mkRun (header ++ events r1) (world r1) (Halt code)
  end.
Proof.
  cbn [demoLoop].
  rewrite (bind_normal (log _) _ w [Log (DemoHeader (i + 1) n)] w tt eq_refl). cbv beta.
  rewrite (bind_normal (log _) _ w [Log (UserPrompt prompt)] w tt eq_refl). cbv beta.
  rewrite (bind_normal (log _) _ w [Log Blank] w tt eq_refl). cbv beta.
  rewrite !prepend_prepend. cbv zeta.
  destruct (generateResponse invoke rnd cfg g prompt true w)
    as [evs w1 [a|e|c]] eqn:E; cbn [events world completion].
  - rewrite (bind_normal _ _ w evs w1 a E). cbv beta.
    destruct (i <? n - 1)%nat.
    + rewrite (bind_normal (log Separator) _ w1 [Log Separator] w1 tt eq_refl).
      rewrite !prepend_prepend. now rewrite <- !app_assoc.
    + rewrite (bind_normal (ret tt) _ w1 [] w1 tt eq_refl).
      rewrite !prepend_prepend. now rewrite <- !app_assoc.
  - now rewrite (bind_throw _ _ w evs w1 e E).
  - now rewrite (bind_halt _ _ w evs w1 c E).
Qed.

Lemma demoLoop_tame g prompts :
  forall i n w, Forall (fun ev => tame ev = true)
                       (events (demoLoop invoke rnd cfg g prompts i n w)).
Proof.
  induction prompts as [|prompt rest IH]; intros i n w; [constructor|].
  rewrite demoLoop_cons. cbv zeta.
  pose proof (generateResponse_tame g prompt true w) as T.
  destruct (completion (generateResponse invoke rnd cfg g prompt true w));
    cbn [prepend events]; rewrite ?Forall_app; repeat split;
    repeat constructor; auto.
  destruct (i <? n - 1)%nat; repeat constructor.
Qed.

(** Demo mode never ends the process by itself; it returns or throws. *)
Lemma demoLoop_neverHalts g prompts :
  forall i n, neverHalts (demoLoop invoke rnd cfg g prompts i n).
Proof.
  induction prompts as [|prompt rest IH]; intros i n w code; [discriminate|].
  rewrite demoLoop_cons. cbv zeta.
  pose proof (generateResponse_neverHalts g prompt true w) as NH.
  destruct (completion (generateResponse invoke rnd cfg g prompt true w)) as [a|e|c];
    cbn [prepend completion]; [apply IH|discriminate|now destruct (NH c)].
Qed.

(** The calls of demo mode are those of a prefix of the prompts, in order,
    each on a conversation of its own, and of all the prompts when the
    loop returns. *)
Lemma demoLoop_calls g prompts :
  forall i n w,
    exists k,
      generatorCalls (events (demoLoop invoke rnd cfg g prompts i n w)) =
      map (callFor cfg g) (firstn k prompts) /\
      (completion (demoLoop invoke rnd cfg g prompts i n w) = Normal tt ->
       k = length prompts).
Proof.
  induction prompts as [|prompt rest IH]; intros i n w.
  - exists 0%nat. split; reflexivity.
  - rewrite demoLoop_cons. cbv zeta.
    pose proof (generateResponse_calls g prompt true w) as C.
    pose proof (generateResponse_neverHalts g prompt true w) as NH.
    destruct (completion (generateResponse invoke rnd cfg g prompt true w)) as [a|e|c].
    + destruct (IH (i + 1)%nat n
                  (world (generateResponse invoke rnd cfg g prompt true w)))
        as (k & Hk & Hn).
      exists (S k). cbn [prepend events completion]. split.
      * rewrite !generatorCalls_app, Hk. simpl app at 1.
        change (generatorCalls [Log (DemoHeader (i + 1) n); Log (UserPrompt prompt); Log Blank])
          with (@nil (Generator * Conversation * GenOptions)).
        rewrite C. destruct (i <? n - 1)%nat; reflexivity.
      * intros H. simpl. f_equal. auto.
    + exists 1%nat. cbn [events completion]. split; [|discriminate].
      rewrite generatorCalls_app, C. reflexivity.
    + now destruct (NH c).
Qed.

Lemma runDemoModeOn_run prompts g w :
  runDemoModeOn invoke rnd cfg prompts g w =
  prepend [Log DemoBanner] (demoLoop invoke rnd cfg g prompts 0 (length prompts) w).
Proof.
  unfold runDemoModeOn.
  now rewrite (bind_normal (log DemoBanner) _ w [Log DemoBanner] w tt eq_refl).
Qed.

Lemma runSinglePrompt_run g prompt w :
  runSinglePrompt invoke rnd cfg g prompt w =
  let r1 := generateResponse invoke rnd cfg g prompt true w in
  mkRun (Log (UserPrompt prompt) :: Log Blank :: events r1) (world r1)
        (match completion r1 with
         | Normal _ => Normal tt
         | Throw e => Throw e
         | Halt code => Halt code
         end).
Proof.
  unfold runSinglePrompt.
  rewrite (bind_normal (log _) _ w [Log (UserPrompt prompt)] w tt eq_refl). cbv beta.
  rewrite (bind_normal (log _) _ w [Log Blank] w tt eq_refl). cbv beta.
  rewrite prepend_prepend. cbv zeta.
  destruct (generateResponse invoke rnd cfg g prompt true w)
    as [evs w1 [a|e|c]] eqn:E; cbn [events world completion].
  - rewrite (bind_normal _ _ w evs w1 a E). unfold prepend, ret; cbn.
    now rewrite app_nil_r.
  - now rewrite (bind_throw _ _ w evs w1 e E).
  - now rewrite (bind_halt _ _ w evs w1 c E).
Qed.

(** ** The modes under [main] *)

Lemma dispatch_interactive g lines w :
  dispatch invoke rnd cfg g [] lines w =
  prepend [Log InteractiveBanner]
    (askQuestion invoke rnd cfg g lines (mkWorld (engine w) Open)).
Proof. apply runInteractiveMode_run. Qed.

Lemma dispatch_demo g rest lines w :
  dispatch invoke rnd cfg g ("--demo" :: rest) lines w =
  prepend [Log DemoBanner] (demoLoop invoke rnd cfg g demos 0 (length demos) w).
Proof. apply runDemoModeOn_run. Qed.

Lemma dispatch_prompt_missing g lines (w : World EngineState) :
  dispatch invoke rnd cfg g ["--prompt"] lines w =
  mkRun [LogError PromptRequiresArgument; Log Usage] w (Halt 1).
Proof. reflexivity. Qed.

Lemma dispatch_prompt g first rest lines w :
  dispatch invoke rnd cfg g ("--prompt" :: first :: rest) lines w =
  runSinglePrompt invoke rnd cfg g (join " " (first :: rest)) w.
Proof.
  change (dispatch invoke rnd cfg g ("--prompt" :: first :: rest) lines w)
    with (bind (ret tt)
            (fun _ => runSinglePrompt invoke rnd cfg g (join " " (first :: rest))) w).
  rewrite (bind_normal (ret tt) _ w [] w tt eq_refl).
  now destruct (runSinglePrompt invoke rnd cfg g (join " " (first :: rest)) w).
Qed.

Lemma runSinglePrompt_tame g prompt w :
  Forall (fun ev => tame ev = true) (events (runSinglePrompt invoke rnd cfg g prompt w)).
Proof.
  rewrite runSinglePrompt_run. cbn [events].
  repeat constructor. apply generateResponse_tame.
Qed.

(** Once the model is loaded no mode loads again, and no mode samples. *)
Lemma dispatch_tame g args lines w :
  Forall (fun ev => tame ev = true) (events (dispatch invoke rnd cfg g args lines w)).
Proof.
  destruct args as [|arg0 rest].
  - rewrite dispatch_interactive. cbn [prepend events].
    repeat constructor. apply askQuestion_tame.
  - unfold dispatch.
    destruct (String.eqb arg0 "--demo").
    + unfold runDemoMode. rewrite runDemoModeOn_run. cbn [prepend events].
      repeat constructor. apply demoLoop_tame.
    + destruct (String.eqb arg0 "--prompt").
      * apply Forall_bind; [|intros; apply runSinglePrompt_tame].
        intros w0. destruct (length (arg0 :: rest) <? 2)%nat; repeat constructor.
      * repeat constructor.
Qed.

(** In every mode and whatever the runtime answers, [main] calls
    [pipeline] exactly once, at the configured precision. *)
Lemma node_loads_once args lines st :
  pipelineCalls (events (node pipeline invoke rnd cfg args lines st)) = [dtype cfg].
Proof.
  unfold node.
  destruct (pipeline "text-generation" (model cfg) (dtype cfg)) as [e|g] eqn:H.
  - now rewrite (main_load_rejected e _ _ _ H).
  - rewrite (main_loaded g _ _ _ H). cbv zeta.
    pose proof (dispatch_tame g args lines (mkWorld st NotCreated)) as T.
    apply tame_no_pipeline in T.
    destruct (completion _); cbn [events];
      rewrite ?pipelineCalls_app, T; reflexivity.
Qed.

Lemma node_never_samples args lines st :
  Forall (fun ev => samples ev = false)
         (events (node pipeline invoke rnd cfg args lines st)).
Proof.
  unfold node.
  destruct (pipeline "text-generation" (model cfg) (dtype cfg)) as [e|g] eqn:H.
  - rewrite (main_load_rejected e _ _ _ H). repeat constructor.
  - rewrite (main_loaded g _ _ _ H). cbv zeta.
    pose proof (dispatch_tame g args lines (mkWorld st NotCreated)) as T.
    apply tame_no_sampling in T.
    destruct (completion _); cbn [events]; rewrite ?Forall_app;
      repeat split; auto; repeat constructor.
Qed.

(** ** The command line *)

(** C2, as the code has it.  With [--prompt] and no text, [main] first
    attempts the load, exactly once.  If the model loads, the usage error is
    reported next and the process exits with code 1; if the load is rejected,
    the process exits with code 1 on the fatal-error path and no usage error
    is reported.  Either way no generation call is made. *)
Theorem prompt_without_text_exits_after_load lines st :
  let r := node pipeline invoke rnd cfg ["--prompt"] lines st in
  status r = Exited 1 /\
  pipelineCalls (events r) = [dtype cfg] /\
  generatorCalls (events r) = [] /\
  match pipeline "text-generation" (model cfg) (dtype cfg) with
  | inr _ => events r = boot cfg ++ [LogError PromptRequiresArgument; Log Usage]
  | inl e => events r = bootFailure cfg e
  end.
Proof.
  cbv zeta. split; [|split; [apply node_loads_once|]]; unfold node;
    destruct (pipeline "text-generation" (model cfg) (dtype cfg)) as [e|g] eqn:H;
    rewrite ?(main_load_rejected e _ _ _ H), ?(main_loaded g _ _ _ H),
      ?dispatch_prompt_missing; cbn [events completion world];
    try reflexivity; split; reflexivity.
Qed.

(** C10.  In single-prompt mode the arguments that follow [--prompt] are
    joined with single spaces, and the one generation call of the run is
    made on the conversation whose only turn is the user turn with that
    text. *)
Theorem prompt_arguments_joined g first rest lines st :
  pipeline "text-generation" (model cfg) (dtype cfg) = inr g ->
  generatorCalls
    (events (node pipeline invoke rnd cfg ("--prompt" :: first :: rest) lines st)) =
  [ (g,
     [ {| role := "user"; content := join " " (first :: rest) |} ],
     {| max_new_tokens := maxTokens cfg; do_sample := false; streamer := true |}) ].
Proof.
  intros H. unfold node. rewrite (main_loaded g _ _ _ H). cbv zeta.
  rewrite dispatch_prompt, runSinglePrompt_run. cbv zeta.
  pose proof (generateResponse_calls g (join " " (first :: rest)) true
                (mkWorld st NotCreated)) as C.
  destruct (completion (generateResponse _ _ _ _ _ _ _)); cbn [events completion];
    rewrite generatorCalls_boot, ?generatorCalls_app,
      !generatorCalls_skip by reflexivity;
    rewrite C; reflexivity.
Qed.

(** ** Interactive sessions *)

(** C7.  An empty input line makes no generation call and the question is
    asked again: the session goes on exactly as on the lines that follow.
    In particular a session whose only input is the empty line has made no
    generation call and is awaiting input. *)
Theorem empty_line_asks_again g rest w :
  askQuestion invoke rnd cfg g ("" :: rest) w =
    prepend [Question] (askQuestion invoke rnd cfg g rest w) /\
  generatorCalls (events (runInteractiveMode invoke rnd cfg g [""] w)) = [] /\
  status (runInteractiveMode invoke rnd cfg g [""] w) = AwaitingInput.
Proof.
  split; [now apply askQuestion_blank|].
  rewrite runInteractiveMode_run, askQuestion_blank by reflexivity.
  split; reflexivity.
Qed.

(** A line of white space only is treated as the empty line. *)
Lemma whitespace_line_asks_again g line rest w :
  allWhiteSpace line = true ->
  askQuestion invoke rnd cfg g (line :: rest) w =
  prepend [Question] (askQuestion invoke rnd cfg g rest w).
Proof.
  intros H. apply askQuestion_blank.
  now rewrite (JsStringFacts.trim_all_whitespace _ H).
Qed.

(** C9.  The exit keywords are matched on the trimmed, lower-cased line:
    [q], like [quit] and [exit], in any letter case and with any white space
    around it, ends the session: a goodbye, the interface closed, no
    generation call, and the lines that follow are not read. *)
Theorem exit_keyword_closes_session g pre kw post rest w :
  allWhiteSpace pre = true ->
  allWhiteSpace post = true ->
  In (toLowerCase kw) ["quit"; "exit"; "q"] ->
  askQuestion invoke rnd cfg g ((pre ++ kw ++ post)%string :: rest) w =
  mkRun [Question; Log Goodbye; Close] (mkWorld (engine w) Closed) (Normal tt).
Proof.
  intros Hpre Hpost Hkw.
  destruct (JsStringFacts.exit_keyword_solid kw Hkw) as [Hsolid Hne].
  pose proof (JsStringFacts.trim_padded pre kw post Hpre Hpost Hsolid) as T.
  apply askQuestion_exit; rewrite T.
  - destruct kw; [contradiction|reflexivity].
  - simpl in Hkw. destruct Hkw as [<-|[<-|[<-|[]]]]; reflexivity.
Qed.

(** The session of one line is closed exactly when the trimmed, lower-cased
    line is one of the three keywords. *)
Lemma session_closed_iff g line w :
  readline (world (runInteractiveMode invoke rnd cfg g [line] w)) = Closed <->
  includes ["quit"; "exit"; "q"] (toLowerCase (trim line)) = true.
Proof.
  rewrite runInteractiveMode_run. cbn [prepend world].
  destruct (truthy (trim line)) eqn:H1.
  - destruct (includes ["quit"; "exit"; "q"] (toLowerCase (trim line))) eqn:H2.
    + rewrite (askQuestion_exit _ _ _ _ H1 H2). now split.
    + destruct (String.eqb (toLowerCase (trim line)) "clear") eqn:H3.
      * rewrite (askQuestion_clear _ _ _ _ H1 H2 H3). cbn. split; discriminate.
      * rewrite (askQuestion_prompt _ _ _ _ H1 H2 H3). cbn [prepend world].
        rewrite askQuestion_nil. cbn [world].
        rewrite generateResponse_keepsReadline. cbn. split; discriminate.
  - rewrite (askQuestion_blank _ _ _ _ H1). cbn.
    destruct (trim line); [|discriminate]. cbn. split; discriminate.
Qed.

(** C5.  In interactive mode, on the input lines [hello] then [quit], there
    is exactly one generation call, made for [hello], and the process ends
    with exit code 0; whatever is typed after [quit] is not read. *)
Theorem hello_quit_one_generation g more st :
  pipeline "text-generation" (model cfg) (dtype cfg) = inr g ->
  let r := node pipeline invoke rnd cfg [] ("hello" :: "quit" :: more) st in
  generatorCalls (events r) = [callFor cfg g "hello"] /\
  status r = Exited 0.
Proof.
  intros H. cbv zeta. unfold node. rewrite (main_loaded g _ _ _ H). cbv zeta.
  rewrite dispatch_interactive.
  rewrite (askQuestion_prompt g "hello" _ _ eq_refl eq_refl eq_refl). cbv zeta.
  rewrite (askQuestion_exit g "quit" _ _ eq_refl eq_refl).
  cbn [prepend events world completion]. split.
  - rewrite generatorCalls_boot. cbn [app].
    rewrite !generatorCalls_skip by reflexivity.
    rewrite !generatorCalls_app, generateResponse_calls.
    destruct (completion (generateResponse _ _ _ _ _ _ _)); reflexivity.
  - reflexivity.
Qed.

(** ** Generation errors, mode by mode *)

(** In interactive mode no generation error ends the process: whatever
    the runtime answers and whatever is typed, the process is awaiting input
    or has ended with exit code 0. *)
Lemma interactive_errors_not_fatal g lines st :
  pipeline "text-generation" (model cfg) (dtype cfg) = inr g ->
  let r := node pipeline invoke rnd cfg [] lines st in
  status r = AwaitingInput \/ status r = Exited 0.
Proof.
  intros H. cbv zeta. unfold node. rewrite (main_loaded g _ _ _ H). cbv zeta.
  rewrite dispatch_interactive. cbn [prepend completion engine].
  rewrite askQuestion_completes. unfold status. cbn [completion world prepend].
  destruct (askQuestion_readline g lines (mkWorld st Open) eq_refl) as [-> | ->];
    auto.
Qed.

(** In demo mode the first generation error is fatal: it is rethrown to
    [main], which exits with code 1; the prompts that follow are not run. *)
Lemma demo_error_fatal g e st st' first rest lines :
  pipeline "text-generation" (model cfg) (dtype cfg) = inr g ->
  demos = first :: rest ->
  invoke rnd g st (singleTurn first) (streamingOptions cfg) = (inl e, st') ->
  let r := node pipeline invoke rnd cfg ["--demo"] lines st in
  status r = Exited 1 /\
  generatorCalls (events r) = [callFor cfg g first] /\
  In (LogError (FatalError e)) (events r).
Proof.
  intros H D F. cbv zeta. unfold node. rewrite (main_loaded g _ _ _ H). cbv zeta.
  rewrite dispatch_demo, D, demoLoop_cons. cbv zeta.
  rewrite (generateResponse_rethrows g first true (mkWorld st NotCreated) e st' F).
  cbn [completion events world prepend app]. repeat split.
  rewrite !in_app_iff. right. simpl. auto 10.
Qed.

(** So is a generation error in single-prompt mode. *)
Lemma single_prompt_error_fatal g e st st' first rest lines :
  pipeline "text-generation" (model cfg) (dtype cfg) = inr g ->
  invoke rnd g st (singleTurn (join " " (first :: rest))) (streamingOptions cfg) =
    (inl e, st') ->
  status (node pipeline invoke rnd cfg ("--prompt" :: first :: rest) lines st) =
  Exited 1.
Proof.
  intros H F. unfold node. rewrite (main_loaded g _ _ _ H). cbv zeta.
  rewrite dispatch_prompt, runSinglePrompt_run. cbv zeta.
  now rewrite (generateResponse_rethrows g _ true (mkWorld st NotCreated) e st' F).
Qed.

(** When demo mode runs to its end, it has made one call per prompt, in
    order, each on a conversation of that prompt alone. *)
Lemma demo_calls_when_completed prompts g w :
  completion (runDemoModeOn invoke rnd cfg prompts g w) = Normal tt ->
  generatorCalls (events (runDemoModeOn invoke rnd cfg prompts g w)) =
  map (callFor cfg g) prompts.
Proof.
  rewrite runDemoModeOn_run. cbn [prepend completion events app].
  intros H.
  destruct (demoLoop_calls g prompts 0%nat (length prompts) w) as (k & Hk & Hn).
  rewrite generatorCalls_skip by reflexivity.
  rewrite Hk, (Hn H). now rewrite firstn_all.
Qed.

End ProgramFacts.

(** ** Decoding without sampling *)

Section Determinism.

Context {Generator EngineState Entropy : Type}.
Variable pipeline : string -> string -> string -> Error + Generator.
Variable invoke :
  Entropy -> Generator -> EngineState -> Conversation -> GenOptions ->
  (Error + Output) * EngineState.
Variable cfg : Config.

(** The contract of the runtime for greedy decoding: a call that does not
    ask for sampling does not read the random source. *)
Hypothesis greedy :
  forall rnd rnd' g st messages opts,
    do_sample opts = false ->
    invoke rnd g st messages opts = invoke rnd' g st messages opts.

Variables rnd rnd' : Entropy.

Lemma generateResponse_reproducible g prompt streaming w :
  generateResponse invoke rnd cfg g prompt streaming w =
  generateResponse invoke rnd' cfg g prompt streaming w.
Proof.
  rewrite !generateResponse_run.
  now rewrite (greedy rnd rnd' g (engine w) (singleTurn prompt)
                 (optionsOf cfg streaming) eq_refl).
Qed.

Lemma askQuestion_reproducible g lines :
  forall w, askQuestion invoke rnd cfg g lines w = askQuestion invoke rnd' cfg g lines w.
Proof.
  induction lines as [|line rest IH]; intros w; [reflexivity|].
  cbn [askQuestion]. apply bind_ext; [reflexivity|]. intros _ w1.
  destruct (negb (truthy (trim line))); [apply IH|].
  destruct (includes _ _); [reflexivity|].
  destruct (String.eqb _ _).
  - repeat (apply bind_ext; [reflexivity|intros]). apply IH.
  - apply bind_ext; [reflexivity|]. intros _ w2.
    apply bind_ext; [|intros; apply IH].
    apply tryCatch_ext; [|reflexivity].
    apply bind_ext; [apply generateResponse_reproducible|reflexivity].
Qed.

Lemma demoLoop_reproducible g prompts :
  forall i n w,
    demoLoop invoke rnd cfg g prompts i n w = demoLoop invoke rnd' cfg g prompts i n w.
Proof.
  induction prompts as [|prompt rest IH]; intros i n w; [reflexivity|].
  cbn [demoLoop].
  repeat (apply bind_ext; [reflexivity|intros]).
  apply bind_ext; [apply generateResponse_reproducible|intros].
  apply bind_ext; [reflexivity|intros; apply IH].
Qed.

Lemma main_reproducible args lines w :
  main pipeline invoke rnd cfg args lines w = main pipeline invoke rnd' cfg args lines w.
Proof.
  unfold main. apply tryCatch_ext; [|reflexivity].
  apply bind_ext; [reflexivity|]. intros _.
  apply bind_ext; [reflexivity|]. intros g w1.
  destruct args as [|arg0 rest].
  - unfold runInteractiveMode.
    repeat (apply bind_ext; [reflexivity|intros]). apply askQuestion_reproducible.
  - destruct (String.eqb arg0 "--demo").
    + unfold runDemoMode, runDemoModeOn.
      apply bind_ext; [reflexivity|intros]. apply demoLoop_reproducible.
    + destruct (String.eqb arg0 "--prompt"); [|reflexivity].
      apply bind_ext; [reflexivity|intros]. unfold runSinglePrompt.
      repeat (apply bind_ext; [reflexivity|intros]).
      apply bind_ext; [apply generateResponse_reproducible|reflexivity].
Qed.

End Determinism.

(** C8.  Every generation call of every mode is made with sampling turned
    off, and, the runtime decoding greedily without reading its random
    source, generation is reproducible: the same prompt in the same engine
    state gives the same run of [generateResponse] (the same reply or error,
    the same engine state after it), and so does the whole program on the
    same arguments and input lines. *)
Theorem generation_is_deterministic {Generator EngineState Entropy : Type}
    (pipeline : string -> string -> string -> Error + Generator)
    (invoke : Entropy -> Generator -> EngineState -> Conversation -> GenOptions ->
              (Error + Output) * EngineState)
    (cfg : Config) :
  (forall rnd rnd' g st messages opts,
      do_sample opts = false ->
      invoke rnd g st messages opts = invoke rnd' g st messages opts) ->
  forall rnd rnd' : Entropy,
    (forall args lines st,
        Forall (fun ev => samples ev = false)
               (events (node pipeline invoke rnd cfg args lines st))) /\
    (forall g prompt streaming w,
        generateResponse invoke rnd cfg g prompt streaming w =
        generateResponse invoke rnd' cfg g prompt streaming w) /\
    (forall args lines st,
        node pipeline invoke rnd cfg args lines st =
        node pipeline invoke rnd' cfg args lines st).
Proof.
  intros greedy rnd rnd'. split; [|split].
  - intros. apply node_never_samples.
  - intros. now apply generateResponse_reproducible.
  - intros. unfold node. now apply main_reproducible.
Qed.

(** ** The loader of the design *)

Section DesignLoaderFacts.

Context {Generator : Type}.
Variable pipeline : string -> string -> string -> Error + Generator.
Variable model : string.

(** The loader of the design does what the design asks: the candidates up
    to the first that loads are attempted, in order, and no other. *)
Lemma designLoader_first_success before target g after :
  Forall (fun d => exists e, pipeline "text-generation" model d = inl e) before ->
  pipeline "text-generation" model target = inr g ->
  designLoader pipeline model (before ++ target :: after) =
  (before ++ [target], inr (g, target)).
Proof.
  intros Hb Ht. induction Hb as [|d before [e He] _ IH]; simpl.
  - now rewrite Ht.
  - now rewrite He, IH.
Qed.

(** When no candidate loads it attempts them all and signals one reason
    per candidate, in order. *)
Lemma designLoader_all_fail candidates reasons :
  Forall2 (fun d e => pipeline "text-generation" model d = inl e) candidates reasons ->
  designLoader pipeline model candidates = (candidates, inl reasons).
Proof.
  induction 1 as [|d e candidates reasons He _ IH]; simpl; [reflexivity|].
  now rewrite He, IH.
Qed.

End DesignLoaderFacts.

(** ** The loader of the program against the loader of the design *)

Section LoaderComparison.

Context {Generator EngineState Entropy : Type}.
Variable pipeline : string -> string -> string -> Error + Generator.
Variable invoke :
  Entropy -> Generator -> EngineState -> Conversation -> GenOptions ->
  (Error + Output) * EngineState.
Variable rnd : Entropy.
Variable cfg : Config.

(** When the configured precision loads, the program does what the design
    does on any list of candidates that starts with it: one attempt, and the
    handle of that attempt. *)
Lemma loader_agrees_when_first_loads g others (w : World EngineState) :
  pipeline "text-generation" (model cfg) (dtype cfg) = inr g ->
  designLoader pipeline (model cfg) (dtype cfg :: others) =
    ([dtype cfg], inr (g, dtype cfg)) /\
  pipelineCalls (events (initializePipeline pipeline cfg w)) = [dtype cfg] /\
  completion (initializePipeline pipeline cfg w) = Normal g.
Proof.
  intros H. split.
  - exact (designLoader_first_success pipeline (model cfg) [] (dtype cfg) g others
             (Forall_nil _) H).
  - now rewrite (initializePipeline_loaded pipeline cfg g w H).
Qed.

(** When it does not, the program stops there, with the one reason of that
    attempt: the process exits with code 1 in every mode, whatever other
    precision would have loaded. *)
Lemma loader_gives_up_after_first_failure e args lines st :
  pipeline "text-generation" (model cfg) (dtype cfg) = inl e ->
  let r := node pipeline invoke rnd cfg args lines st in
  pipelineCalls (events r) = [dtype cfg] /\
  loadFailures (events r) = [e] /\
  generatorCalls (events r) = [] /\
  status r = Exited 1.
Proof.
  intros H. cbv zeta. unfold node.
  rewrite (main_load_rejected pipeline invoke rnd cfg e args lines _ H).
  repeat split.
Qed.

(** With the configured precision as only candidate, that is the failure
    the design signals. *)
Lemma loader_agrees_on_single_candidate e :
  pipeline "text-generation" (model cfg) (dtype cfg) = inl e ->
  designLoader pipeline (model cfg) [dtype cfg] = ([dtype cfg], inl [e]).
Proof.
  intros H. apply designLoader_all_fail. repeat constructor. exact H.
Qed.

End LoaderComparison.

(** * The claims on sample runs *)

Module Runs.

Import Sample.

(** The echo runtime decodes greedily when it is not asked to sample... *)
Lemma echo_greedy rnd rnd' g st messages opts :
  do_sample opts = false ->
  echo rnd g st messages opts = echo rnd' g st messages opts.
Proof. intros H. unfold echo. now rewrite H. Qed.

(** ... and its replies do depend on the random source when it is. *)
Lemma echo_sampling_not_reproducible :
  echo 0 (Loaded "m" "fp32") 0 (singleTurn "hi")
       {| max_new_tokens := 512; do_sample := true; streamer := true |} <>
  echo 1 (Loaded "m" "fp32") 0 (singleTurn "hi")
       {| max_new_tokens := 512; do_sample := true; streamer := true |}.
Proof. discriminate. Qed.

End Runs.

(** C1, at a run the code fails.  On hardware where of the precisions
    [q4f16], [q8], [fp32] only the third loads, the loader of the design
    attempts the three in order and returns the handle bound to [fp32]; the
    program attempts the configured [q4f16] alone and the process ends with
    exit code 1: there is no second attempt. *)
Theorem loader_makes_no_second_attempt :
  let r := node Sample.onlyFp32 Sample.echo 0%nat CONFIG [] [] 0%nat in
  designLoader Sample.onlyFp32 (model CONFIG) Sample.candidates =
    (["q4f16"; "q8"; "fp32"], inr (Sample.Loaded (model CONFIG) "fp32", "fp32")) /\
  pipelineCalls (events r) = ["q4f16"] /\
  generatorCalls (events r) = [] /\
  status r = Exited 1.
Proof. vm_compute. repeat split. Qed.

(** C4, at a run the code fails.  On a machine where none of the three
    precisions loads, the loader of the design signals three reasons, one
    per candidate in attempt order; the program attempts [q4f16] alone and
    reports the one reason of that attempt before the process ends with exit
    code 1. *)
Theorem load_failure_carries_one_reason :
  let r := node Sample.rejectAll Sample.echo 0%nat CONFIG [] [] 0%nat in
  designLoader Sample.rejectAll (model CONFIG) Sample.candidates =
    (["q4f16"; "q8"; "fp32"],
     inl ["fetch failed: q4f16"; "fetch failed: q8"; "fetch failed: fp32"]) /\
  pipelineCalls (events r) = ["q4f16"] /\
  loadFailures (events r) = ["fetch failed: q4f16"] /\
  status r = Exited 1.
Proof. vm_compute. repeat split. Qed.

(** C3, at a run the code fails.  With a generator whose first call fails
    and which answers afterwards, demo mode reports the error of the first
    prompt and the process ends there with exit code 1, the two other
    prompts never run; interactive mode, on the same runtime, reports the
    error of the first line, runs the second and goes on awaiting input. *)
Theorem demo_generation_error_ends_process :
  let g := Sample.Loaded (model CONFIG) (dtype CONFIG) in
  let demo := node Sample.acceptAll Sample.failFirst 0%nat CONFIG ["--demo"] [] 0%nat in
  let chat := node Sample.acceptAll Sample.failFirst 0%nat CONFIG []
                ["first"; "second"] 0%nat in
  status demo = Exited 1 /\
  In (LogError (ErrorDuringGeneration "transient runtime error")) (events demo) /\
  In (LogError (FatalError "transient runtime error")) (events demo) /\
  generatorCalls (events demo) =
    [callFor CONFIG g "Solve the equation: x^2 - 3x + 2 = 0"] /\
  status chat = AwaitingInput /\
  In (LogError (InteractiveError "transient runtime error")) (events chat) /\
  generatorCalls (events chat) = [callFor CONFIG g "first"; callFor CONFIG g "second"].
Proof. vm_compute. repeat split; auto 20. Qed.

(** C6, at a run the code fails.  When every call succeeds demo mode makes
    one call per prompt, in order, each on a conversation of that prompt
    alone; with a generator whose first call fails it makes the first call
    only, one call for three prompts. *)
Theorem demo_calls_stop_at_first_error :
  let g := Sample.Loaded (model CONFIG) (dtype CONFIG) in
  generatorCalls
    (events (node Sample.acceptAll Sample.echo 0%nat CONFIG ["--demo"] [] 0%nat)) =
    map (callFor CONFIG g) demos /\
  generatorCalls
    (events (node Sample.acceptAll Sample.failFirst 0%nat CONFIG ["--demo"] [] 0%nat)) =
    map (callFor CONFIG g) (firstn 1 demos) /\
  length demos = 3%nat.
Proof. vm_compute. repeat split. Qed.

(** C2, the claim as stated fails: with [--prompt] alone and a model that
    loads, the usage error is reported and the exit code is 1, but the load
    has been attempted. *)
Lemma prompt_without_text_loads_first :
  let r := node Sample.acceptAll Sample.echo 0%nat CONFIG ["--prompt"] [] 0%nat in
  ~ (status r = Exited 1 /\
     In (LogError PromptRequiresArgument) (events r) /\
     pipelineCalls (events r) = []).
Proof. vm_compute. intros (_ & _ & H). discriminate H. Qed.

(** C5 on a sample run. *)
Lemma hello_quit_sample_run :
  Sample.acceptAll "text-generation" (model CONFIG) (dtype CONFIG) =
    inr (Sample.Loaded (model CONFIG) (dtype CONFIG)) /\
  let r := node Sample.acceptAll Sample.echo 0%nat CONFIG [] ["hello"; "quit"] 0%nat in
  generatorCalls (events r) =
    [callFor CONFIG (Sample.Loaded (model CONFIG) (dtype CONFIG)) "hello"] /\
  status r = Exited 0.
Proof.
  split; [reflexivity|].
  apply (hello_quit_one_generation Sample.acceptAll Sample.echo 0%nat CONFIG
           (Sample.Loaded (model CONFIG) (dtype CONFIG)) [] 0%nat).
  reflexivity.
Defined.

(** C9 on a sample run: [ Q ] between blanks ends the session. *)
Lemma exit_keyword_sample_run :
  allWhiteSpace "  " = true /\
  allWhiteSpace " " = true /\
  In (toLowerCase "Q") ["quit"; "exit"; "q"] /\
  askQuestion Sample.echo 0%nat CONFIG (Sample.Loaded "m" "q4f16")
    ["  Q "; "not read"] (mkWorld 0%nat Open) =
  mkRun [Question; Log Goodbye; Close] (mkWorld 0%nat Closed) (Normal tt).
Proof.
  split; [reflexivity|]. split; [reflexivity|]. split; [simpl; auto|].
  apply (exit_keyword_closes_session Sample.echo 0%nat CONFIG
           (Sample.Loaded "m" "q4f16") "  " "Q" " " ["not read"] (mkWorld 0%nat Open)).
  - reflexivity.
  - reflexivity.
  - simpl. auto.
Defined.

(** C10 on a sample run: three arguments make the prompt [What is AI?]. *)
Lemma prompt_arguments_sample_run :
  Sample.acceptAll "text-generation" (model CONFIG) (dtype CONFIG) =
    inr (Sample.Loaded (model CONFIG) (dtype CONFIG)) /\
  generatorCalls
    (events (node Sample.acceptAll Sample.echo 0%nat CONFIG
               ["--prompt"; "What"; "is"; "AI?"] [] 0%nat)) =
  [ (Sample.Loaded (model CONFIG) (dtype CONFIG),
     [ {| role := "user"; content := "What is AI?" |} ],
     {| max_new_tokens := 512; do_sample := false; streamer := true |}) ].
Proof.
  split; [reflexivity|].
  apply (prompt_arguments_joined Sample.acceptAll Sample.echo 0%nat CONFIG
           (Sample.Loaded (model CONFIG) (dtype CONFIG)) "What" ["is"; "AI?"] [] 0%nat).
  reflexivity.
Defined.

(** C8 on a sample runtime: the echo generator decodes greedily, so two
    runs of the program that differ in the random source alone are equal. *)
Lemma deterministic_sample_run :
  (forall rnd rnd' g st messages opts,
      do_sample opts = false ->
      Sample.echo rnd g st messages opts = Sample.echo rnd' g st messages opts) /\
  node Sample.acceptAll Sample.echo 0%nat CONFIG ["--demo"] [] 0%nat =
  node Sample.acceptAll Sample.echo 1%nat CONFIG ["--demo"] [] 0%nat.
Proof.
  split.
  - exact Runs.echo_greedy.
  - apply (generation_is_deterministic Sample.acceptAll Sample.echo CONFIG).
    exact Runs.echo_greedy.
Defined.

(** * Further properties of the program *)

Module MoreStringFacts.

Local Open Scope string_scope.

(** The spellings of the [clear] keyword are solid words. *)
Lemma clear_keyword_solid kw :
  toLowerCase kw = "clear" -> JsString.truthy kw = true /\ solid kw.
Proof.
  assert (W : forall c d : ascii, lowerChar c = d -> isWhiteSpace d = false ->
                                  isWhiteSpace c = false).
  { intros c d <- H. now rewrite JsStringFacts.lowerChar_whitespace in H. }
  intros H.
  repeat (destruct kw as [|? kw]; simpl in H; try discriminate H).
  injection H as ?; intros.
  repeat match goal with
         | E : lowerChar ?c = _ |- _ =>
             let F := fresh "F" in
             pose proof (W _ _ E eq_refl) as F; clear E
         end.
  split; [reflexivity|]. split; simpl;
    repeat match goal with F : isWhiteSpace _ = false |- _ => rewrite F; clear F end;
    reflexivity.
Qed.

End MoreStringFacts.

Section SessionFacts.

Context {Generator EngineState Entropy : Type}.
Variable pipeline : string -> string -> string -> Error + Generator.
Variable invoke :
  Entropy -> Generator -> EngineState -> Conversation -> GenOptions ->
  (Error + Output) * EngineState.
Variable rnd : Entropy.
Variable cfg : Config.

(** One line of an interactive session, by its kind. *)
Lemma askQuestion_step g line rest w :
  askQuestion invoke rnd cfg g (line :: rest) w =
  match classify line with
  | BlankLine => prepend [Question] (askQuestion invoke rnd cfg g rest w)
  | ExitLine =>
      mkRun [Question; Log Goodbye; Close] (mkWorld (engine w) Closed) (Normal tt)
  | ClearLine =>
      prepend [Question; Clear; Log (Banner (model cfg) (dtype cfg) (maxTokens cfg))]
        (askQuestion invoke rnd cfg g rest w)
  | PromptLine text =>
      let r1 := generateResponse invoke rnd cfg g text true w in
      prepend (Question :: Log Blank :: events r1 ++
                 match completion r1 with
                 | Throw e => [LogError (InteractiveError e)]
                 | _ => []
                 end)
        (askQuestion invoke rnd cfg g rest (world r1))
  end.
Proof.
  unfold classify. cbv zeta.
  destruct (truthy (trim line)) eqn:H1; cbn [negb].
  - destruct (includes ["quit"; "exit"; "q"] (toLowerCase (trim line))) eqn:H2.
    + now apply askQuestion_exit.
    + destruct (String.eqb (toLowerCase (trim line)) "clear") eqn:H3.
      * now apply askQuestion_clear.
      * now apply askQuestion_prompt.
  - now apply askQuestion_blank.
Qed.

(** The run of [generateResponse] on a call that is answered. *)
Lemma generateResponse_answered g p w output text st' :
  invoke rnd g (engine w) (singleTurn p) (streamingOptions cfg) = (inr output, st') ->
  replyOf output = inr text ->
  generateResponse invoke rnd cfg g p true w =
  mkRun [ Log AssistantHeader;
          GeneratorCall g (singleTurn p) (streamingOptions cfg);
          Log StreamEnd ]
        (mkWorld st' (readline w)) (Normal text).
Proof.
  intros H R. rewrite generateResponse_run.
  unfold streamingOptions in H. rewrite H, R. reflexivity.
Qed.

Lemma askQuestion_calls g lines :
  forall w,
    generatorCalls (events (askQuestion invoke rnd cfg g lines w)) =
    map (callFor cfg g) (sessionPrompts lines).
Proof.
  induction lines as [|line rest IH]; intros w; [reflexivity|].
  rewrite askQuestion_step. cbn [sessionPrompts].
  destruct (classify line) as [| | |text]; cbv zeta; cbn [prepend events app].
  - rewrite generatorCalls_skip by reflexivity. apply IH.
  - reflexivity.
  - rewrite !generatorCalls_skip by reflexivity. apply IH.
  - rewrite !generatorCalls_skip by reflexivity.
    rewrite !generatorCalls_app, generateResponse_calls, IH.
    destruct (completion (generateResponse _ _ _ _ _ _ _)); reflexivity.
Qed.




(** X6.  The [clear] keyword, in any letter case and with any white space
    around it, clears the screen and shows the banner again; it makes no
    generation call, leaves the engine as it was, and the session goes on
    with the next line. *)
Theorem clear_keyword_redisplays_banner g pre kw post rest w :
  allWhiteSpace pre = true ->
  allWhiteSpace post = true ->
  toLowerCase kw = "clear" ->
  askQuestion invoke rnd cfg g ((pre ++ kw ++ post)%string :: rest) w =
  prepend [Question; Clear; Log (Banner (model cfg) (dtype cfg) (maxTokens cfg))]
    (askQuestion invoke rnd cfg g rest w).
Proof.
  intros Hpre Hpost Hkw.
  destruct (MoreStringFacts.clear_keyword_solid kw Hkw) as [Hne Hsolid].
  pose proof (JsStringFacts.trim_padded pre kw post Hpre Hpost Hsolid) as T.
  apply askQuestion_clear; rewrite T, ?Hkw; auto.
Qed.

(** X7.  In interactive mode a generation call that fails is reported, by
    [generateResponse] and again by the session, and the session goes on
    with the next line from the engine state the failed call left. *)
Theorem interactive_failed_generation_continues g line rest w text e st' :
  classify line = PromptLine text ->
  invoke rnd g (engine w) (singleTurn text) (streamingOptions cfg) = (inl e, st') ->
  askQuestion invoke rnd cfg g (line :: rest) w =
  prepend [ Question; Log Blank; Log AssistantHeader;
            GeneratorCall g (singleTurn text) (streamingOptions cfg);
            LogError (ErrorDuringGeneration e);
            LogError (InteractiveError e) ]
    (askQuestion invoke rnd cfg g rest (mkWorld st' (readline w))).
Proof.
  intros C F. rewrite askQuestion_step, C. cbv zeta.
  now rewrite (generateResponse_rethrows invoke rnd cfg g text true w e st' F).
Qed.

End SessionFacts.

Section RunFacts.

Context {Generator EngineState Entropy : Type}.
Variable pipeline : string -> string -> string -> Error + Generator.
Variable invoke :
  Entropy -> Generator -> EngineState -> Conversation -> GenOptions ->
  (Error + Output) * EngineState.
Variable rnd : Entropy.
Variable cfg : Config.

(** ** The generation call *)

(** X9.  A reply of the generator from which no last message can be read
    (an empty array, or a reply without messages) is a generation error like
    any other: [generateResponse] reports it and throws, in the engine state
    the call left. *)
Theorem malformed_reply_is_generation_error g p s w output e st' :
  invoke rnd g (engine w) (singleTurn p) (optionsOf cfg s) = (inr output, st') ->
  replyOf output = inl e ->
  let r := generateResponse invoke rnd cfg g p s w in
  completion r = Throw e /\
  reportedErrors (events r) = [ErrorDuringGeneration e] /\
  generatorCalls (events r) = [(g, singleTurn p, optionsOf cfg s)] /\
  engine (world r) = st'.
Proof.
  intros H R. cbv zeta. rewrite generateResponse_run, H, R.
  destruct s; repeat split.
Qed.

(** ** Demo mode *)






Lemma demoLoop_keepsReadline g prompts :
  forall i n, keepsReadline (demoLoop invoke rnd cfg g prompts i n).
Proof.
  induction prompts as [|prompt more IH]; intros i n w; [reflexivity|].
  rewrite demoLoop_cons. cbv zeta.
  pose proof (generateResponse_keepsReadline invoke rnd cfg g prompt true w) as KR.
  destruct (completion (generateResponse invoke rnd cfg g prompt true w));
    cbn [prepend world]; [rewrite IH|idtac|idtac]; exact KR.
Qed.

Lemma demoLoop_completes g prompts :
  alwaysAnswers invoke rnd g ->
  forall i n w, completion (demoLoop invoke rnd cfg g prompts i n w) = Normal tt.
Proof.
  intros A. induction prompts as [|prompt rest IH]; intros i n w; [reflexivity|].
  rewrite demoLoop_cons. cbv zeta.
  destruct (A (engine w) (singleTurn prompt) (streamingOptions cfg))
    as (output & text & st' & H & R).
  rewrite (generateResponse_answered invoke rnd cfg g prompt w output text st' H R).
  cbn [completion prepend world]. apply IH.
Qed.

(** X11.  When the generator answers every call, demo mode runs to its
    end: one call per prompt, in order, each on a conversation of that
    prompt alone, and with the built-in prompts the process ends with exit
    code 0. *)
Theorem demo_runs_to_its_end g :
  pipeline "text-generation" (model cfg) (dtype cfg) = inr g ->
  alwaysAnswers invoke rnd g ->
  (forall prompts w,
      completion (runDemoModeOn invoke rnd cfg prompts g w) = Normal tt /\
      generatorCalls (events (runDemoModeOn invoke rnd cfg prompts g w)) =
        map (callFor cfg g) prompts) /\
  (forall rest lines st,
      let r := node pipeline invoke rnd cfg ("--demo" :: rest) lines st in
      status r = Exited 0 /\
      generatorCalls (events r) = map (callFor cfg g) demos).
Proof.
  intros H A.
  assert (D : forall prompts w,
             completion (runDemoModeOn invoke rnd cfg prompts g w) = Normal tt).
  { intros prompts w. rewrite runDemoModeOn_run. cbn [prepend completion].
    now apply demoLoop_completes. }
  split.
  - intros prompts w. split; [apply D|]. apply demo_calls_when_completed, D.
  - intros rest lines st. cbv zeta. unfold node.
    rewrite (main_loaded pipeline invoke rnd cfg g _ _ _ H). cbv zeta.
    change (dispatch invoke rnd cfg g ("--demo" :: rest) lines (mkWorld st NotCreated))
      with (runDemoModeOn invoke rnd cfg demos g (mkWorld st NotCreated)).
    pose proof (D demos (mkWorld st NotCreated)) as C.
    pose proof (demo_calls_when_completed invoke rnd cfg demos g _ C) as K.
    rewrite C. cbn [events world completion]. split.
    + unfold status. cbn [completion world].
      rewrite runDemoModeOn_run. cbn [prepend world].
      now rewrite demoLoop_keepsReadline.
    + now rewrite generatorCalls_boot.
Qed.

(** ** The command line and the exit code *)

(** With an argument on the command line the mode leaves the [readline]
    interface alone, and if it ends the process it is with code 1. *)
Lemma dispatch_with_argument g arg0 rest lines w :
  let d := dispatch invoke rnd cfg g (arg0 :: rest) lines w in
  readline (world d) = readline w /\
  (forall code, completion d = Halt code -> code = 1%Z).
Proof.
  cbv zeta. unfold dispatch.
  destruct (String.eqb arg0 "--demo").
  - unfold runDemoMode. rewrite runDemoModeOn_run. cbn [prepend world completion].
    split; [apply demoLoop_keepsReadline|].
    intros code C. now destruct (demoLoop_neverHalts invoke rnd cfg g demos _ _ _ _ C).
  - destruct (String.eqb arg0 "--prompt"); [|split; [reflexivity|]].
    + destruct rest as [|first rest]; cbn [length Nat.ltb Nat.leb].
      * split; [reflexivity|]. cbn. intros code C. now injection C as <-.
      * rewrite (bind_normal (ret tt) _ w [] w tt eq_refl). cbn [prepend world completion].
        rewrite runSinglePrompt_run. cbv zeta. cbn [world completion].
        split; [apply generateResponse_keepsReadline|].
        intros code C.
        pose proof (generateResponse_neverHalts invoke rnd cfg g
                      (join " " (skipn 1 (arg0 :: first :: rest))) true w) as NH.
        destruct (completion (generateResponse _ _ _ _ _ _ _)) as [a|e|c];
          try discriminate C. now destruct (NH c).
    + cbn. intros code C. now injection C as <-.
Qed.

(** X2.  With any argument on the command line the process always ends,
    with exit code 0 or 1, whatever the runtime does: no [readline]
    interface is created and standard input is never waited for. *)
Theorem run_with_argument_always_exits arg0 rest lines st :
  let r := node pipeline invoke rnd cfg (arg0 :: rest) lines st in
  (status r = Exited 0 \/ status r = Exited 1) /\
  readline (world r) = NotCreated.
Proof.
  cbv zeta. unfold node.
  destruct (pipeline "text-generation" (model cfg) (dtype cfg)) as [e|g] eqn:H.
  - rewrite (main_load_rejected pipeline invoke rnd cfg e _ _ _ H). split; [now right|reflexivity].
  - rewrite (main_loaded pipeline invoke rnd cfg g _ _ _ H). cbv zeta.
    destruct (dispatch_with_argument g arg0 rest lines (mkWorld st NotCreated))
      as [R Hc]. cbv zeta in R, Hc.
    destruct (completion (dispatch invoke rnd cfg g (arg0 :: rest) lines _))
      as [a|e|c] eqn:C; unfold status; cbn [completion world]; rewrite ?R;
      cbn [readline]; split; auto.
    right. now rewrite (Hc c eq_refl).
Qed.

(** X1.  A first argument that is neither [--demo] nor [--prompt] is a
    usage error, found after the load: the load is attempted once; if the
    model loads, the argument is reported with the usage text and the
    process exits with code 1, and if it does not, the process exits with
    code 1 on the fatal-error path.  No generation call is made. *)
Theorem unknown_argument_is_usage_error arg0 rest lines st :
  arg0 <> "--demo" ->
  arg0 <> "--prompt" ->
  let r := node pipeline invoke rnd cfg (arg0 :: rest) lines st in
  status r = Exited 1 /\
  generatorCalls (events r) = [] /\
  match pipeline "text-generation" (model cfg) (dtype cfg) with
  | inr _ => events r = boot cfg ++ [LogError (UnknownArgument arg0); Log Usage]
  | inl e => events r = bootFailure cfg e
  end.
Proof.
  intros Hd Hp. cbv zeta. unfold node.
  apply String.eqb_neq in Hd. apply String.eqb_neq in Hp.
  destruct (pipeline "text-generation" (model cfg) (dtype cfg)) as [e|g] eqn:H.
  - rewrite (main_load_rejected pipeline invoke rnd cfg e _ _ _ H). repeat split.
  - rewrite (main_loaded pipeline invoke rnd cfg g _ _ _ H). cbv zeta.
    unfold dispatch. rewrite Hd, Hp. repeat split.
Qed.

(** X12.  A load that is rejected is fatal in every mode: whatever the
    arguments and the input, the reason is reported by the loader and again
    as fatal error, the process exits with code 1, no mode starts and the
    engine is left as it was. *)
Theorem load_failure_is_fatal_in_every_mode e args lines st :
  pipeline "text-generation" (model cfg) (dtype cfg) = inl e ->
  let r := node pipeline invoke rnd cfg args lines st in
  events r = bootFailure cfg e /\
  reportedErrors (events r) = [ErrorLoadingModel e; FatalError e] /\
  status r = Exited 1 /\
  world r = mkWorld st NotCreated.
Proof.
  intros H. cbv zeta. unfold node.
  rewrite (main_load_rejected pipeline invoke rnd cfg e _ _ _ H). repeat split.
Qed.

(** X8.  In single-prompt mode, when the model loads and the generator
    answers, the run is: the prompt shown, one streamed generation call, and
    the process ends with exit code 0 in the engine state the call left. *)
Theorem single_prompt_answered_exits_zero g first rest lines st output text st' :
  pipeline "text-generation" (model cfg) (dtype cfg) = inr g ->
  invoke rnd g st (singleTurn (join " " (first :: rest))) (streamingOptions cfg) =
    (inr output, st') ->
  replyOf output = inr text ->
  let prompt := join " " (first :: rest) in
  let r := node pipeline invoke rnd cfg ("--prompt" :: first :: rest) lines st in
  events r = boot cfg ++ [ Log (UserPrompt prompt); Log Blank; Log AssistantHeader;
                           GeneratorCall g (singleTurn prompt) (streamingOptions cfg);
                           Log StreamEnd ] /\
  status r = Exited 0 /\
  engine (world r) = st'.
Proof.
  intros H A R. cbv zeta. unfold node.
  rewrite (main_loaded pipeline invoke rnd cfg g _ _ _ H). cbv zeta.
  rewrite dispatch_prompt, runSinglePrompt_run. cbv zeta.
  rewrite (generateResponse_answered invoke rnd cfg g _ (mkWorld st NotCreated)
             output text st' A R).
  repeat split.
Qed.

(** X4.  In every mode and whatever the runtime answers, no generation call
    is made unless the model has loaded, and every call that is made is on
    the handle the load returned, with a conversation of a single user turn
    and the streaming options of the configuration: no call carries the
    turns of an earlier one. *)
Theorem every_call_is_a_fresh_single_turn args lines st :
  let r := node pipeline invoke rnd cfg args lines st in
  match pipeline "text-generation" (model cfg) (dtype cfg) with
  | inr g => exists prompts, generatorCalls (events r) = map (callFor cfg g) prompts
  | inl _ => generatorCalls (events r) = []
  end.
Proof.
  cbv zeta. unfold node.
  destruct (pipeline "text-generation" (model cfg) (dtype cfg)) as [e|g] eqn:H.
  - now rewrite (main_load_rejected pipeline invoke rnd cfg e _ _ _ H).
  - rewrite (main_loaded pipeline invoke rnd cfg g _ _ _ H). cbv zeta.
    assert (D : exists prompts,
               generatorCalls
                 (events (dispatch invoke rnd cfg g args lines (mkWorld st NotCreated))) =
               map (callFor cfg g) prompts).
    { destruct args as [|arg0 rest].
      - exists (sessionPrompts lines). rewrite dispatch_interactive.
        cbn [prepend events app]. rewrite generatorCalls_skip by reflexivity.
        apply askQuestion_calls.
      - unfold dispatch. destruct (String.eqb arg0 "--demo").
        + unfold runDemoMode. rewrite runDemoModeOn_run. cbn [prepend events app].
          rewrite generatorCalls_skip by reflexivity.
          destruct (demoLoop_calls invoke rnd cfg g demos 0%nat (length demos)
                      (mkWorld st NotCreated)) as (k & Hk & _).
          now exists (firstn k demos).
        + destruct (String.eqb arg0 "--prompt"); [|now exists []].
          destruct rest as [|first rest]; [now exists []|].
          cbn [length Nat.ltb Nat.leb].
          rewrite (bind_normal (ret tt) _ _ [] _ tt eq_refl). cbn [prepend events app].
          exists [join " " (skipn 1 (arg0 :: first :: rest))].
          rewrite runSinglePrompt_run. cbv zeta. cbn [events].
          rewrite !generatorCalls_skip by reflexivity.
          apply generateResponse_calls. }
    destruct D as (prompts & D). exists prompts.
    destruct (completion _); cbn [events];
      rewrite generatorCalls_boot, ?generatorCalls_app, D, ?app_nil_r; reflexivity.
Qed.

(** The trace of a run whose load succeeded: start-up, the mode, and the
    fatal error if the mode threw. *)
Lemma node_loaded_events g args lines st :
  pipeline "text-generation" (model cfg) (dtype cfg) = inr g ->
  let d := dispatch invoke rnd cfg g args lines (mkWorld st NotCreated) in
  events (node pipeline invoke rnd cfg args lines st) =
  boot cfg ++ events d ++
  match completion d with
  | Throw e => [LogError (FatalError e)]
  | _ => []
  end.
Proof.
  intros H. cbv zeta. unfold node.
  rewrite (main_loaded pipeline invoke rnd cfg g _ _ _ H). cbv zeta.
  destruct (completion _); cbn [events]; now rewrite ?app_nil_r.
Qed.

(** X19.  Every run starts the same way, whatever the arguments: the
    banner, then one attempt to load the configured model at the configured
    precision; the mode runs after a load that succeeded and makes no
    further load, and a load that failed is all there is to the run. *)
Theorem load_is_first_and_only args lines st :
  let r := node pipeline invoke rnd cfg args lines st in
  match pipeline "text-generation" (model cfg) (dtype cfg) with
  | inr _ => exists tail, events r = boot cfg ++ tail /\ pipelineCalls tail = []
  | inl e => events r = bootFailure cfg e
  end.
Proof.
  cbv zeta.
  destruct (pipeline "text-generation" (model cfg) (dtype cfg)) as [e|g] eqn:H.
  - unfold node. now rewrite (main_load_rejected pipeline invoke rnd cfg e _ _ _ H).
  - rewrite (node_loaded_events g _ _ _ H). cbv zeta.
    eexists. split; [reflexivity|].
    rewrite pipelineCalls_app.
    rewrite (tame_no_pipeline _ (dispatch_tame invoke rnd cfg g args lines _)).
    now destruct (completion _).
Qed.

End RunFacts.

(** ** The scripts *)

Section ScriptFacts.

Import Scripts.

Context {Generator EngineState Entropy : Type}.
Variable pipeline : string -> string -> string -> Error + Generator.
Variable invoke :
  Entropy -> Generator -> EngineState -> Conversation -> GenOptions ->
  (Error + Output) * EngineState.
Variable invokeText :
  Entropy -> Generator -> EngineState -> string -> GenOptions ->
  (Error + list Completed) * EngineState.
Variable rnd : Entropy.

(** X14.  [test.js] exercises the start of demo mode: on the same runtime
    and from the same engine state, its library calls are the first two of
    [main.js --demo] under the shipped configuration, the load of the same
    model at the same precision and, if it succeeds, the generation call of
    the first demo prompt with the same options. *)
Theorem test_script_makes_first_demo_calls st :
  libraryCalls (fst (fst (testScript pipeline invoke rnd st))) =
  firstn 2 (asScriptCalls
              (events (node pipeline invoke rnd CONFIG ["--demo"] [] st))).
Proof.
  unfold testScript.
  destruct (pipeline "text-generation"
              "onnx-community/DeepSeek-R1-Distill-Qwen-1.5B-ONNX" "q4f16")
    as [e|g] eqn:H.
  - unfold node. now rewrite (main_load_rejected pipeline invoke rnd CONFIG e _ _ _ H).
  - rewrite (node_loaded_events pipeline invoke rnd CONFIG g _ _ _ H). cbv zeta.
    rewrite dispatch_demo. unfold demos. rewrite demoLoop_cons. cbv zeta.
    rewrite generateResponse_run.
    change (invoke rnd g (engine (mkWorld st NotCreated))
              (singleTurn "Solve the equation: x^2 - 3x + 2 = 0")
              (optionsOf CONFIG true))
      with (invoke rnd g st
              [ {| role := "user"; content := "Solve the equation: x^2 - 3x + 2 = 0" |} ]
              {| max_new_tokens := 512; do_sample := false; streamer := true |}).
    destruct (invoke rnd g st _ _) as [[e|out] st'];
      [|destruct (replyOf out)]; reflexivity.
Qed.

(** X15.  If [test.js] fails (exit code 1) then, on the same runtime and
    from the same engine state, [main.js --demo] under the shipped
    configuration fails too. *)
Theorem test_failure_implies_demo_failure st rest lines :
  scriptStatus (snd (testScript pipeline invoke rnd st)) = Exited 1 ->
  status (node pipeline invoke rnd CONFIG ("--demo" :: rest) lines st) = Exited 1.
Proof.
  unfold node, testScript.
  destruct (pipeline "text-generation"
              "onnx-community/DeepSeek-R1-Distill-Qwen-1.5B-ONNX" "q4f16")
    as [e|g] eqn:H.
  - intros _. now rewrite (main_load_rejected pipeline invoke rnd CONFIG e _ _ _ H).
  - rewrite (main_loaded pipeline invoke rnd CONFIG g _ _ _ H). cbv zeta.
    rewrite dispatch_demo. unfold demos. rewrite demoLoop_cons. cbv zeta.
    rewrite generateResponse_run.
    change (invoke rnd g (engine (mkWorld st NotCreated))
              (singleTurn "Solve the equation: x^2 - 3x + 2 = 0")
              (optionsOf CONFIG true))
      with (invoke rnd g st
              [ {| role := "user"; content := "Solve the equation: x^2 - 3x + 2 = 0" |} ]
              {| max_new_tokens := 512; do_sample := false; streamer := true |}).
    destruct (invoke rnd g st _ _) as [[e|out] st'];
      [|destruct (replyOf out)]; cbn; try reflexivity; discriminate.
Qed.

(** X16.  [testModelLoad] never fails: whatever the runtime does, the
    promise it returns is fulfilled, every error being caught and reported.
    It loads [Xenova/gpt2] at [fp32], and completes the text [Hello, ] with
    at most 10 new tokens and no sampling if and only if that load
    succeeded. *)
Theorem diagnostic_never_fails st :
  let '(evs, st', c) := testModelLoad pipeline invokeText rnd st in
  c = Normal tt /\
  match pipeline "text-generation" "Xenova/gpt2" "fp32" with
  | inl error =>
      libraryCalls evs = [Load "text-generation" "Xenova/gpt2" "fp32"] /\
      In (SayError (TestFailed error)) evs /\
      st' = st
  | inr g =>
      libraryCalls evs =
      [ Load "text-generation" "Xenova/gpt2" "fp32";
        Complete g "Hello, "
          {| max_new_tokens := 10; do_sample := false; streamer := false |} ]
  end.
Proof.
  unfold testModelLoad.
  destruct (pipeline "text-generation" "Xenova/gpt2" "fp32") as [e|g].
  - cbn. auto 10.
  - destruct (invokeText rnd g st _ _) as [[e|[|o out]] st']; cbn; auto.
Qed.

(** X17.  [testModelLoad] reports that inference works exactly when the
    load succeeded and the completion resolved with at least one result;
    otherwise it reports the failure. *)
Theorem diagnostic_reports_success_iff st :
  let '(evs, _, _) := testModelLoad pipeline invokeText rnd st in
  (In (Say InferenceWorks) evs <->
   exists g o more st',
     pipeline "text-generation" "Xenova/gpt2" "fp32" = inr g /\
     invokeText rnd g st "Hello, "
       {| max_new_tokens := 10; do_sample := false; streamer := false |} =
       (inr (o :: more), st')) /\
  (In (Say InferenceWorks) evs \/ exists error, In (SayError (TestFailed error)) evs).
Proof.
  unfold testModelLoad.
  destruct (pipeline "text-generation" "Xenova/gpt2" "fp32") as [e|g].
  - split; [split|].
    + cbn. intuition discriminate.
    + intros (g & o & more & st' & H & _). discriminate H.
    + right. exists e. cbn. auto 10.
  - destruct (invokeText rnd g st _ _) as [[e|[|o out]] st'] eqn:I; cbn.
    + split; [split|].
      * intuition discriminate.
      * intros (g' & o & more & st'' & H & H'). injection H as <-.
        rewrite I in H'. discriminate H'.
      * right. exists e. auto 20.
    + split; [split|].
      * intuition discriminate.
      * intros (g' & o & more & st'' & H & H'). injection H as <-.
        rewrite I in H'. discriminate H'.
      * right. eexists. auto 20.
    + split; [split|].
      * intros _. exists g, o, out, st'. split; [reflexivity|exact I].
      * intros _. auto 20.
      * left. auto 20.
Qed.

End ScriptFacts.

(** ** White space around a line, and the engine across a session *)

Module PaddingFacts.

Local Open Scope string_scope.

Lemma trimStart_blank s : allWhiteSpace s = true -> trimStart s = "".
Proof.
  induction s as [|c s IH]; simpl; intros H; [reflexivity|].
  apply andb_true_iff in H as [Hc Hs]. rewrite Hc. now apply IH.
Qed.

Lemma trimStart_app s post :
  allWhiteSpace s = false -> trimStart (s ++ post) = trimStart s ++ post.
Proof.
  induction s as [|c s IH]; simpl; intros H; [discriminate|].
  destruct (isWhiteSpace c); [now apply IH|reflexivity].
Qed.

(** [trim] does not see the white space put around a string. *)
Lemma trim_padding pre s post :
  allWhiteSpace pre = true -> allWhiteSpace post = true ->
  trim (pre ++ s ++ post) = trim s.
Proof.
  intros Hpre Hpost. unfold trim.
  rewrite (JsStringFacts.trimStart_whitespace _ _ Hpre).
  destruct (allWhiteSpace s) eqn:Hs.
  - rewrite (JsStringFacts.trimStart_whitespace _ _ Hs).
    now rewrite (trimStart_blank post Hpost), (trimStart_blank s Hs).
  - rewrite (trimStart_app _ _ Hs).
    now apply JsStringFacts.trimEnd_whitespace.
Qed.

End PaddingFacts.

Section MoreSessionFacts.

Context {Generator EngineState Entropy : Type}.
Variable invoke :
  Entropy -> Generator -> EngineState -> Conversation -> GenOptions ->
  (Error + Output) * EngineState.
Variable rnd : Entropy.
Variable cfg : Config.

(** X18.  White space typed before or after a line never matters: the
    session treats the padded line as the line itself, whatever its kind
    (blank, keyword or prompt), and a padded prompt is sent without the
    padding. *)
Theorem padding_is_ignored g pre line post rest w :
  allWhiteSpace pre = true ->
  allWhiteSpace post = true ->
  askQuestion invoke rnd cfg g ((pre ++ line ++ post)%string :: rest) w =
  askQuestion invoke rnd cfg g (line :: rest) w.
Proof.
  intros Hpre Hpost. rewrite !askQuestion_step.
  unfold classify. now rewrite (PaddingFacts.trim_padding pre line post Hpre Hpost).
Qed.




End MoreSessionFacts.

(** ** The further properties on sample runs *)

Module MoreRuns.

Import Sample MoreSamples.

(** The echo generator answers every call. *)
Lemma echo_always_answers rnd g : alwaysAnswers echo rnd g.
Proof.
  intros st messages opts. unfold echo, reply.
  eexists _, _, _. split; [reflexivity|].
  unfold replyOf. cbn [generated_text]. now rewrite rev_unit.
Qed.

End MoreRuns.

(** X1 on a sample run: [--help] is not an argument of the program. *)
Lemma unknown_argument_sample_run :
  "--help" <> "--demo" /\
  "--help" <> "--prompt" /\
  let r := node Sample.acceptAll Sample.echo 0%nat CONFIG ["--help"] [] 0%nat in
  status r = Exited 1 /\
  generatorCalls (events r) = [] /\
  events r = boot CONFIG ++ [LogError (UnknownArgument "--help"); Log Usage].
Proof.
  split; [discriminate|]. split; [discriminate|].
  apply (unknown_argument_is_usage_error Sample.acceptAll Sample.echo 0%nat CONFIG
           "--help" [] [] 0%nat); discriminate.
Defined.


(** X6 on a sample run: [Clear] between blanks. *)
Lemma clear_keyword_sample_run :
  allWhiteSpace " " = true /\
  allWhiteSpace "  " = true /\
  toLowerCase "Clear" = "clear" /\
  askQuestion Sample.echo 0%nat CONFIG (Sample.Loaded "m" "q4f16")
    [" Clear  "] (mkWorld 0%nat Open) =
  prepend [Question; Clear;
           Log (Banner (model CONFIG) (dtype CONFIG) (maxTokens CONFIG))]
    (askQuestion Sample.echo 0%nat CONFIG (Sample.Loaded "m" "q4f16") []
       (mkWorld 0%nat Open)).
Proof.
  split; [reflexivity|]. split; [reflexivity|]. split; [reflexivity|].
  apply (clear_keyword_redisplays_banner Sample.echo 0%nat CONFIG
           (Sample.Loaded "m" "q4f16") " " "Clear" "  " [] (mkWorld 0%nat Open));
    reflexivity.
Defined.

(** X7 on a sample run: a generator that always rejects. *)
Lemma interactive_failure_sample_run :
  classify " Hello " = PromptLine "Hello" /\
  MoreSamples.alwaysFails 0%nat (Sample.Loaded "m" "q4f16") 0%nat (singleTurn "Hello")
    (streamingOptions CONFIG) = (inl "out of memory", 1%nat) /\
  askQuestion MoreSamples.alwaysFails 0%nat CONFIG (Sample.Loaded "m" "q4f16")
    [" Hello "; "quit"] (mkWorld 0%nat Open) =
  prepend [ Question; Log Blank; Log AssistantHeader;
            GeneratorCall (Sample.Loaded "m" "q4f16") (singleTurn "Hello")
              (streamingOptions CONFIG);
            LogError (ErrorDuringGeneration "out of memory");
            LogError (InteractiveError "out of memory") ]
    (askQuestion MoreSamples.alwaysFails 0%nat CONFIG (Sample.Loaded "m" "q4f16")
       ["quit"] (mkWorld 1%nat Open)).
Proof.
  split; [reflexivity|]. split; [reflexivity|].
  apply (interactive_failed_generation_continues MoreSamples.alwaysFails 0%nat CONFIG
           (Sample.Loaded "m" "q4f16") " Hello " ["quit"] (mkWorld 0%nat Open)
           "Hello" "out of memory" 1%nat); reflexivity.
Defined.

(** X8 on a sample run. *)
Lemma single_prompt_sample_run :
  let g := Sample.Loaded (model CONFIG) (dtype CONFIG) in
  let r := node Sample.acceptAll Sample.echo 0%nat CONFIG
             ["--prompt"; "What"; "is"; "AI?"] [] 0%nat in
  events r = boot CONFIG ++
             [ Log (UserPrompt "What is AI?"); Log Blank; Log AssistantHeader;
               GeneratorCall g (singleTurn "What is AI?") (streamingOptions CONFIG);
               Log StreamEnd ] /\
  status r = Exited 0 /\
  engine (world r) = 1%nat.
Proof.
  apply (single_prompt_answered_exits_zero Sample.acceptAll Sample.echo 0%nat CONFIG
           (Sample.Loaded (model CONFIG) (dtype CONFIG)) "What" ["is"; "AI?"] [] 0%nat
           (Sample.reply (singleTurn "What is AI?") "echo: What is AI?")
           "echo: What is AI?" 1%nat); reflexivity.
Defined.

(** X9 on a sample run: a generator that resolves with an empty array. *)
Lemma malformed_reply_sample_run :
  let r := generateResponse MoreSamples.emptyOutput 0%nat CONFIG
             (Sample.Loaded "m" "q4f16") "hi" true (mkWorld 0%nat Open) in
  completion r =
    Throw "Cannot read properties of undefined (reading 'generated_text')" /\
  reportedErrors (events r) =
    [ErrorDuringGeneration
       "Cannot read properties of undefined (reading 'generated_text')"] /\
  generatorCalls (events r) =
    [(Sample.Loaded "m" "q4f16", singleTurn "hi", optionsOf CONFIG true)] /\
  engine (world r) = 1%nat.
Proof.
  apply (malformed_reply_is_generation_error MoreSamples.emptyOutput 0%nat CONFIG
           (Sample.Loaded "m" "q4f16") "hi" true (mkWorld 0%nat Open) [] _ 1%nat);
    reflexivity.
Defined.


(** X11 on a sample run. *)
Lemma demo_completes_sample_run :
  let g := Sample.Loaded (model CONFIG) (dtype CONFIG) in
  let r := node Sample.acceptAll Sample.echo 0%nat CONFIG ["--demo"] [] 0%nat in
  status r = Exited 0 /\
  generatorCalls (events r) = map (callFor CONFIG g) demos.
Proof.
  apply (demo_runs_to_its_end Sample.acceptAll Sample.echo 0%nat CONFIG
           (Sample.Loaded (model CONFIG) (dtype CONFIG)) eq_refl
           (MoreRuns.echo_always_answers 0%nat _)).
Defined.

(** X12 on a sample run: a machine on which nothing loads. *)
Lemma load_failure_sample_run :
  Sample.rejectAll "text-generation" (model CONFIG) (dtype CONFIG) =
    inl "fetch failed: q4f16" /\
  let r := node Sample.rejectAll Sample.echo 0%nat CONFIG ["--demo"] [] 0%nat in
  events r = bootFailure CONFIG "fetch failed: q4f16" /\
  reportedErrors (events r) =
    [ErrorLoadingModel "fetch failed: q4f16"; FatalError "fetch failed: q4f16"] /\
  status r = Exited 1 /\
  world r = mkWorld 0%nat NotCreated.
Proof.
  split; [reflexivity|].
  apply (load_failure_is_fatal_in_every_mode Sample.rejectAll Sample.echo 0%nat CONFIG
           "fetch failed: q4f16" ["--demo"] [] 0%nat).
  reflexivity.
Defined.

(** X15 on a sample run: a generator whose first call fails. *)
Lemma test_failure_sample_run :
  Scripts.scriptStatus
    (snd (Scripts.testScript Sample.acceptAll Sample.failFirst 0%nat 0%nat)) =
    Exited 1 /\
  status (node Sample.acceptAll Sample.failFirst 0%nat CONFIG ["--demo"] [] 0%nat) =
    Exited 1.
Proof.
  split; [reflexivity|].
  apply (test_failure_implies_demo_failure Sample.acceptAll Sample.failFirst 0%nat
           0%nat [] []).
  reflexivity.
Defined.

(** X18 on a sample run: a prompt between blanks. *)
Lemma padding_sample_run :
  allWhiteSpace "  " = true /\
  allWhiteSpace " " = true /\
  askQuestion Sample.echo 0%nat CONFIG (Sample.Loaded "m" "q4f16")
    ["  What is AI? "; "q"] (mkWorld 0%nat Open) =
  askQuestion Sample.echo 0%nat CONFIG (Sample.Loaded "m" "q4f16")
    ["What is AI?"; "q"] (mkWorld 0%nat Open).
Proof.
  split; [reflexivity|]. split; [reflexivity|].
  apply (padding_is_ignored Sample.echo 0%nat CONFIG (Sample.Loaded "m" "q4f16")
           "  " "What is AI?" " " ["q"] (mkWorld 0%nat Open)); reflexivity.
Defined.
